(** * Verification of [src/feature_pipeline/data_sourcing.py]

    A shallow embedding of the [DataDownloader] class: the file-name and URL
    derivation, the on-disk cache check, the single-month download and the
    batch loop of [load_raw_data].

    The HTTP client, the zip reader, the CSV parser, the wall clock and the
    helpers imported from [src.setup] are external to the module; they are
    section variables, so every theorem holds whatever they do.  The file
    system is a finite map from paths to nodes, and the program runs in a
    state-and-exception monad over a [World] made of that map and of the
    trace of the requests and log lines emitted so far. *)

From Stdlib Require Import ZArith String Ascii List DecimalString Lia Sorted.
From stdpp Require Import gmap strings list fin_maps.

Open Scope string_scope.
Open Scope list_scope.
Open Scope Z_scope.
Open Scope stdpp_scope.

(** ** Python strings and formatting *)

(** [str(n)] for a Python [int]. *)
Definition str_of_int (n : Z) : string :=
  NilZero.string_of_int (Z.to_int n).

(** [f"{n:02d}"]: sign-aware zero padding to width two.  Only a single
    non-negative digit is shorter than two characters. *)
Definition format_02d (n : Z) : string :=
  let s := str_of_int n in
  if (String.length s <? 2)%nat then "0" +:+ s else s.

(** [c.lower()] on an ASCII character. *)
Definition ascii_lower (c : ascii) : ascii :=
  let n := nat_of_ascii c in
  if ((65 <=? n) && (n <=? 90))%nat then ascii_of_nat (n + 32) else c.

(** Whether every character of [s] is an ASCII character. *)
Fixpoint is_ascii (s : string) : bool :=
  match s with
  | EmptyString => true
  | String c s' => (nat_of_ascii c <? 128)%nat && is_ascii s'
  end.

(** [s.lower()] on a string of ASCII characters: the letters [A-Z] become
    [a-z] and nothing else changes. *)
Fixpoint lower_ascii (s : string) : string :=
  match s with
  | EmptyString => EmptyString
  | String c s' => String (ascii_lower c) (lower_ascii s')
  end.

(** [s.lower()]. Python lowers a string by the Unicode case mapping (the
    Kelvin sign becomes ["k"], for one).  That mapping is computed here on
    the strings of ASCII characters and is a parameter, [unicode_lower], on
    all the others. *)
Definition lower (unicode_lower : string -> string) (s : string) : string :=
  if is_ascii s then lower_ascii s else unicode_lower s.

(** [s[:-k]]: drop the last [k] characters (the empty string when [s] is
    shorter than [k]). *)
Definition drop_last (k : nat) (s : string) : string :=
  String.substring 0 (String.length s - k) s.

(** Whether ["/"] occurs in [s]. *)
Fixpoint has_slash (s : string) : bool :=
  match s with
  | EmptyString => false
  | String c s' => Ascii.eqb c "/" || has_slash s'
  end.

(** The text matched by [re.search(r"([^/]+)$", s)]: the search is leftmost
    and [[^/]+] is greedy, so the match starts right after the last slash
    and runs to the end of [s]; nothing matches when nothing follows the
    last slash.  [after_last_slash] is what follows the last slash. *)
Fixpoint after_last_slash (s : string) : string :=
  match s with
  | EmptyString => EmptyString
  | String c s' => if has_slash s then after_last_slash s' else s
  end.

(** [range(a, b)]. *)
Definition py_range (a b : Z) : list Z :=
  List.map (fun i => a + Z.of_nat i) (List.seq 0 (Z.to_nat (b - a))).

(** ** Exceptions and outcomes *)

(** A path, as the list of its components below the root of the file system. *)
Abbreviation path := (list string).

Inductive exn :=
| KeyError (key : string)
| TypeError
| UnboundLocalError (name : string)
| AssertionError (msg : string)
| InvalidURL                       (* Exception("Invalid URL") *)
| FileNotFoundError (p : path)
| FileExistsError (p : path)
| IsADirectoryError (p : path)
| NotADirectoryError (p : path)
| BadZipFile
| RequestException (msg : string)  (* requests.exceptions.*: transport level *)
| ParserError (msg : string)       (* pandas.errors.* *)
| OSError (msg : string).

Inductive outcome (A : Type) :=
| Return (a : A)
| Raise (e : exn).
Arguments Return {A} a.
Arguments Raise {A} e.

(** A local variable of a Python function body: assigned or not yet. *)
Inductive local (A : Type) :=
| Unbound
| Bound (v : A).
Arguments Unbound {A}.
Arguments Bound {A} v.

(** ** The world: file system and trace *)

Abbreviation bytes := (list Byte.byte).

Inductive node :=
| Dir
| File (content : bytes).

Inductive level := INFO | SUCCESS | ERROR.

Inductive event :=
| Request (url : string)            (* requests.get(url) *)
| Log (lvl : level) (msg : string)  (* logger.<lvl>(msg) *)
| LogException (e : exn).           (* logger.error(error) *)

Record World := mkWorld {
  fs : gmap path node;
  trace : list event
}.

Record Response := mkResponse {
  status_code : Z;
  content : bytes
}.

Inductive io_op :=
| OpMkdir (p : path)
| OpWrite (p : path)
| OpRead (p : path)
| OpRemove (p : path).

(** ** The state-and-exception monad *)

Definition M (A : Type) : Type := World -> World * outcome A.

Definition ret {A} (a : A) : M A := fun w => (w, Return a).
Definition raise {A} (e : exn) : M A := fun w => (w, Raise e).
Definition bind {A B} (c : M A) (k : A -> M B) : M B :=
  fun w =>
    match c w with
    | (w', Return a) => k a w'
    | (w', Raise e) => (w', Raise e)
    end.
Definition lift {A} (o : outcome A) : M A := fun w => (w, o).

(** [try: c  except Exception as e: h e]. Every exception of [exn] is a
    subclass of [Exception]. *)
Definition try_except {A} (c : M A) (h : exn -> M A) : M A :=
  fun w =>
    match c w with
    | (w', Return a) => (w', Return a)
    | (w', Raise e) => h e w'
    end.

Notation "x <- c ;; k" := (bind c (fun x => k))
  (at level 100, c at next level, right associativity).
Notation "c ;;; k" := (bind c (fun _ => k))
  (at level 100, right associativity).

(** One more event at the end of the trace. *)
Definition emit (e : event) : M unit :=
  fun w => (mkWorld (fs w) (trace w ++ [e]), Return tt).

(** [logger.info(msg)], [logger.success(msg)], [logger.error(msg)] *)
Definition logger (lvl : level) (msg : string) : M unit := emit (Log lvl msg).

(** The directory a path lies in. *)
Definition parent (p : path) : path := removelast p.

(** [Path(p).exists()] *)
Definition path_exists (p : path) (w : World) : bool :=
  bool_decide (is_Some (fs w !! p)).

(** Replace the file system, keep the trace. *)
Definition set_fs (f : gmap path node) : M unit :=
  fun w => (mkWorld f (trace w), Return tt).

(** ** File-system primitives

    [io_fault] stands for the failures the file-system model does not
    derive from the tree itself (permissions, a full disk): when it answers
    [Some e] the operation raises [e] and changes nothing. *)

Section Primitives.

Variable io_fault : list event -> io_op -> option exn.

(** Raise what the environment imposes on [op], if anything. *)
Definition check_fault (op : io_op) : M unit :=
  fun w =>
    match io_fault (trace w) op with
    | Some e => (w, Raise e)
    | None => (w, Return tt)
    end.

(** [os.mkdir(p)] *)
Definition os_mkdir (p : path) : M unit :=
  check_fault (OpMkdir p) ;;;
  fun w =>
    match fs w !! p with
    | Some _ => raise (FileExistsError p) w
    | None =>
        match fs w !! parent p with
        | Some Dir => set_fs (<[p := Dir]> (fs w)) w
        | Some (File _) => raise (NotADirectoryError p) w
        | None => raise (FileNotFoundError p) w
        end
    end.

(** [os.makedirs(base/c1/.../cn)], walking down from [base]. *)
Fixpoint makedirs_from (base : path) (comps : list string) : M unit :=
  match comps with
  | [] => ret tt
  | c :: comps' =>
      fun w =>
        match fs w !! (base ++ [c]) with
        | Some Dir => makedirs_from (base ++ [c]) comps' w
        | Some (File _) => raise (FileExistsError (base ++ [c])) w
        | None => (os_mkdir (base ++ [c]) ;;; makedirs_from (base ++ [c]) comps') w
        end
  end.

(** [with open(p, "wb") as f: f.write(b)] *)
Definition write_file (p : path) (b : bytes) : M unit :=
  check_fault (OpWrite p) ;;;
  fun w =>
    match fs w !! p with
    | Some Dir => raise (IsADirectoryError p) w
    | _ =>
        match fs w !! parent p with
        | Some Dir => set_fs (<[p := File b]> (fs w)) w
        | Some (File _) => raise (NotADirectoryError p) w
        | None => raise (FileNotFoundError p) w
        end
    end.

(** [open(p, "rb").read()] *)
Definition read_file (p : path) : M bytes :=
  check_fault (OpRead p) ;;;
  fun w =>
    match fs w !! p with
    | Some (File b) => ret b w
    | Some Dir => raise (IsADirectoryError p) w
    | None => raise (FileNotFoundError p) w
    end.

(** [os.remove(p)] *)
Definition os_remove (p : path) : M unit :=
  check_fault (OpRemove p) ;;;
  fun w =>
    match fs w !! p with
    | Some (File _) => set_fs (delete p (fs w)) w
    | Some Dir => raise (IsADirectoryError p) w
    | None => raise (FileNotFoundError p) w
    end.

(** The zip reader: the name-to-member table of an archive, or
    [BadZipFile] when the bytes are not an archive. *)
Variable unzip : bytes -> option (gmap string bytes).

(** [with ZipFile(file=zip_path, mode="r") as z: z.extract(member, target)].
    [extract] creates the target directory when it is missing and writes
    the member below it. *)
Definition ZipFile_extract (zip_path : path) (member : string) (target : path)
  : M unit :=
  b <- read_file zip_path ;;
  match unzip b with
  | None => raise BadZipFile
  | Some archive =>
      match archive !! member with
      | None => raise (KeyError member)
      | Some data =>
          (fun w =>
             if path_exists target w then ret tt w
             else makedirs_from [] target w) ;;;
          write_file (target ++ [member]) data
      end
  end.

(** ** Tables *)

Variable row : Type.

(** A [pd.DataFrame], as its rows in order. *)
Definition DataFrame := list row.

Variable parse_csv : bytes -> outcome DataFrame.

(** [pd.read_csv(p)] *)
Definition pd_read_csv (p : path) : M DataFrame :=
  b <- read_file p ;;
  lift (parse_csv b).

(** [pd.concat([data, x], axis=0)] where [x] is the value of a local
    variable: reading an unassigned local raises; a [None] entry is
    dropped by pandas; a table is appended below [data]. *)
Definition pd_concat (data : DataFrame) (x : local (option DataFrame))
  : M DataFrame :=
  match x with
  | Unbound => raise (UnboundLocalError "data_for_the_month")
  | Bound None => ret data
  | Bound (Some df) => ret (data ++ df)
  end.

(** ** The HTTP client *)

(** What [requests.get] answers to a URL, given everything that happened
    before: a response, or an exception at transport level. *)
Variable http_get : list event -> string -> outcome Response.

Definition requests_get (url : string) : M Response :=
  fun w =>
    (mkWorld (fs w) (trace w ++ [Request url]), http_get (trace w) url).

End Primitives.

(** [pd.concat] drops a [None] entry: the rows a month contributes. *)
Definition rows_of {row : Type} (r : option (list row)) : list row :=
  match r with
  | Some df => df
  | None => []
  end.

(** [d[k]] on a Python dict with string keys. *)
Definition dict_getitem (d : gmap string string) (k : string) : outcome string :=
  match d !! k with
  | Some v => Return v
  | None => Raise (KeyError k)
  end.

(** [k in d.keys()] *)
Definition dict_has (d : gmap string string) (k : string) : bool :=
  bool_decide (is_Some (d !! k)).

(** ** The class [DataDownloader] *)

Record DataDownloader := mkDataDownloader {
  year : Z;
  city_name : string;
  proper_city_name : string;
  service_names : gmap string string
}.

(** [get_zipfile_name(url)]; [re.search] raises [TypeError] on [None]. *)
Definition get_zipfile_name (url : option string) : outcome string :=
  match url with
  | None => Raise TypeError
  | Some u =>
      match after_last_slash u with
      | EmptyString => Raise InvalidURL
      | name => Return name
      end
  end.

Section Downloader.

(** The collaborators of the module. *)
Variable io_fault : list event -> io_op -> option exn.
Variable unzip : bytes -> option (gmap string bytes).
Variable row : Type.
Variable parse_csv : bytes -> outcome (DataFrame row).
Variable http_get : list event -> string -> outcome Response.

(** [RAW_DATA_DIR] and [make_needed_directories] of [src.setup.paths],
    [proper_city_name] of [src.setup.config]: not part of this module.
    The bootstrap of the directories acts on the file system only. *)
Variable RAW_DATA_DIR : path.
Variable make_needed_directories :
  gmap path node -> gmap path node * outcome unit.
Variable config_proper_city_name : string -> outcome string.

(** [str.lower] on the strings that are not made of ASCII characters only. *)
Variable unicode_lower : string -> string.

(** [datetime.now().year] and [datetime.now().month] *)
Variable now_year now_month : Z.

Local Abbreviation os_mkdir := (os_mkdir io_fault).
Local Abbreviation write_file := (write_file io_fault).
Local Abbreviation os_remove := (os_remove io_fault).
Local Abbreviation ZipFile_extract := (ZipFile_extract io_fault unzip).
Local Abbreviation pd_read_csv := (pd_read_csv io_fault row parse_csv).
Local Abbreviation pd_concat := (pd_concat row).
Local Abbreviation requests_get := (requests_get http_get).
Local Abbreviation DataFrame := (DataFrame row).

(** [make_needed_directories()] *)
Definition run_make_needed_directories : M unit :=
  fun w =>
    let '(f, r) := make_needed_directories (fs w) in
    (mkWorld f (trace w), r).

(** [DataDownloader.__init__] *)
Definition init (city : string) (yr : Z) : outcome DataDownloader :=
  match config_proper_city_name city with
  | Raise e => Raise e
  | Return proper =>
      let self :=
        {| year := yr;
           city_name := lower unicode_lower city;
           proper_city_name := proper;
           service_names :=
             list_to_map
               [ ("bay_area", "bay-wheels");
                 ("chicago", "divvybikes");
                 ("new_york", "citibikenyc");
                 ("columbus", "cogobikeshare");
                 ("washington_dc", "capitalbikeshare");
                 ("portland", "biketownpdx") ] |} in
      if dict_has (service_names self) (city_name self) then Return self
      else Raise (AssertionError
                    "Lyft doesn't have a bike-sharing system in the named city")
  end.

(** The local [system_data_url] of [city_has_data]: the page of the Bay
    Area has a URL of its own shape. *)
Definition system_data_url (self : DataDownloader) (service_name : string)
  : string :=
  if String.eqb (city_name self) "bay_area"
  then "https://lyft.com/bikes/" +:+ service_name
  else "https://" +:+ service_name +:+ ".com/system-data".

(** [city_has_data] *)
Definition city_has_data (self : DataDownloader) : M bool :=
  match service_names self !! city_name self with
  | Some service_name =>
      logger INFO ("Checking whether Lyft has published any data from "
                     +:+ proper_city_name self) ;;;
      response <- requests_get (system_data_url self service_name) ;;
      if status_code response =? 200 then
        logger SUCCESS ("There's data from " +:+ proper_city_name self +:+ "!") ;;;
        ret true
      else
        logger ERROR ("Lyft hasn't published any data for "
                        +:+ proper_city_name self) ;;;
        ret false
  | None =>
      logger ERROR
        "Lyft isn't currently operating a bike-sharing service in this city" ;;;
      ret false
  end.

(** [get_data_file_name] *)
Definition get_data_file_name (self : DataDownloader) (month : Z)
  : outcome string :=
  let year_and_month := str_of_int (year self) +:+ format_02d month in
  let city_name_and_url : gmap string string :=
    list_to_map
      [ ("chicago", year_and_month +:+ "-divvy-tripdata");
        ("new_york", year_and_month +:+ "-citibike-tripdata");
        ("columbus", year_and_month +:+ "-cogo-tripdata");
        ("washington_dc", year_and_month +:+ "-capitalbikeshare-tripdata");
        ("portland", year_and_month +:+ ".csv") ] in
  dict_getitem city_name_and_url (city_name self).

(** [get_url_for_city_data]: falls off the end, hence [None], in the
    Portland branch. *)
Definition get_url_for_city_data (self : DataDownloader) (month : Z)
  : M (option string) :=
  let city_name_and_url_head : gmap string string :=
    list_to_map
      [ ("chicago", "divvy-tripdata.s3.amazonaws.com/");
        ("new_york", "s3.amazonaws.com/tripdata/");
        ("columbus", "cogo-sys-data.s3.amazonaws.com/");
        ("washington_dc", "s3.amazonaws.com/capitalbikeshare-data/");
        ("portland", "s3.amazonaws.com/biketown-tripdata-public/") ] in
  if String.eqb (city_name self) "portland" && (year self >? 2020) then
    logger ERROR "Lyft doesn't provide data on Portland after 2020." ;;;
    ret None
  else
    file_name <- lift (get_data_file_name self month) ;;
    head <- lift (dict_getitem city_name_and_url_head (city_name self)) ;;
    ret (Some ("https://" +:+ head +:+ file_name +:+ ".zip")).

(** [data_file_exists] *)
Definition data_file_exists (self : DataDownloader) (file_name : string)
  : M bool :=
  fun w =>
    let file_path := RAW_DATA_DIR ++ [city_name self; file_name] in
    (w, Return (if path_exists file_path w then true else false)).

(** The body of the [try] block of [download_one_file_of_raw_data]. *)
Definition download_attempt (self : DataDownloader) (url zipfile_name : string)
    (keep_zipfile : bool) : M (option DataFrame) :=
  let file_name := drop_last 4 zipfile_name in
  let data_directory := RAW_DATA_DIR ++ [city_name self; file_name] in
  let zipfile_path := RAW_DATA_DIR ++ [city_name self; zipfile_name] in
  logger INFO ("Downloading " +:+ zipfile_name) ;;;
  response <- requests_get url ;;
  logger SUCCESS "Download successful!" ;;;
  (fun w =>
     if negb (path_exists data_directory w) then os_mkdir data_directory w
     else ret tt w) ;;;
  write_file zipfile_path (content response) ;;;
  let extracted_file_path := RAW_DATA_DIR ++ [city_name self; file_name] in
  ZipFile_extract zipfile_path (file_name +:+ ".csv") extracted_file_path ;;;
  (if negb keep_zipfile then os_remove zipfile_path else ret tt) ;;;
  data_for_the_month <- pd_read_csv (data_directory ++ [file_name +:+ ".csv"]) ;;
  ret (Some data_for_the_month).

(** [download_one_file_of_raw_data] *)
Definition download_one_file_of_raw_data (self : DataDownloader) (month : Z)
    (keep_zipfile : bool) : M (option DataFrame) :=
  url <- get_url_for_city_data self month ;;
  zipfile_name <- lift (get_zipfile_name url) ;;
  match url with
  | None => raise TypeError   (* not reached: [get_zipfile_name] raised *)
  | Some u =>
      try_except (download_attempt self u zipfile_name keep_zipfile)
        (fun error => emit (LogException error) ;;; ret None)
  end.

(** One iteration of the [for] loop of [load_raw_data]: the new values of
    [data] and of the local [data_for_the_month]. *)
Definition load_one_month (self : DataDownloader) (just_download : bool)
    (month : Z) (data : DataFrame)
    (data_for_the_month : local (option DataFrame))
  : M (DataFrame * local (option DataFrame)) :=
  file_name <- lift (get_data_file_name self month) ;;
  data_for_the_month' <-
    (if just_download then
       cached <- data_file_exists self file_name ;;
       if cached then
         logger SUCCESS (file_name +:+ " is already saved to disk") ;;;
         ret data_for_the_month
       else
         d <- download_one_file_of_raw_data self month false ;;
         ret (Bound d)
     else
       cached <- data_file_exists self file_name ;;
       if cached then
         logger SUCCESS (file_name +:+ " is already saved to disk") ;;;
         d <- pd_read_csv (RAW_DATA_DIR ++ [file_name; file_name +:+ ".csv"]) ;;
         ret (Bound (Some d))
       else
         d <- download_one_file_of_raw_data self month false ;;
         ret (Bound d)) ;;
  data' <- pd_concat data data_for_the_month' ;;
  ret (data', data_for_the_month').

(** The [for] loop of [load_raw_data]. *)
Fixpoint load_months (self : DataDownloader) (just_download : bool)
    (months : list Z) (data : DataFrame)
    (data_for_the_month : local (option DataFrame)) : M DataFrame :=
  match months with
  | [] => ret data
  | month :: rest =>
      st <- load_one_month self just_download month data data_for_the_month ;;
      load_months self just_download rest (fst st) (snd st)
  end.

(** The months the loop of [load_raw_data] runs over. *)
Definition months_to_query_for (self : DataDownloader) (months : option (list Z))
  : list Z :=
  let is_current_year := if year self =? now_year then true else false in
  let end_month := if is_current_year then now_month else 12 in
  match months with
  | None => py_range 1 (end_month + 1)
  | Some l => l
  end.

(** [load_raw_data]: [None] when the function falls off the end. *)
Definition load_raw_data (self : DataDownloader) (just_download : bool)
    (months : option (list Z)) : M (option DataFrame) :=
  run_make_needed_directories ;;;
  let data : DataFrame := [] in
  logger INFO ("Searching local directories for data from "
                 +:+ proper_city_name self +:+ "'s.") ;;;
  has_data <- city_has_data self ;;
  if has_data then
    data' <- load_months self just_download
               (months_to_query_for self months) data Unbound ;;
    ret (Some data')
  else ret None.

(** *** Batches in which every month is downloaded

    Two notions used to state what such a batch returns; they follow the
    worlds that the downloads leave one after the other. *)

(** Every month of the list has a file name and is absent from the cache
    when its turn comes. *)
Fixpoint all_downloaded (self : DataDownloader) (months : list Z) (w : World)
  : Prop :=
  match months with
  | [] => True
  | month :: rest =>
      (exists f,
          get_data_file_name self month = Return f
          /\ path_exists (RAW_DATA_DIR ++ [city_name self; f]) w = false)
      /\ all_downloaded self rest
           (fst (download_one_file_of_raw_data self month false w))
  end.

(** The rows of the months whose download returns a table, in the order of
    the list. *)
Fixpoint downloaded_rows (self : DataDownloader) (months : list Z) (w : World)
  : DataFrame :=
  match months with
  | [] => []
  | month :: rest =>
      match download_one_file_of_raw_data self month false w with
      | (w', Return r) => rows_of r ++ downloaded_rows self rest w'
      | (_, Raise _) => []
      end
  end.

(** *** The command line

    The loop of the [__main__] block over [args.cities], with [args.year],
    once the parser has returned both: one instance per city and a
    download-only batch without an explicit list of months, whose result is
    dropped. *)
Fixpoint main (cities : list string) (yr : Z) : M unit :=
  match cities with
  | [] => ret tt
  | city :: rest =>
      processor <- lift (init city yr) ;;
      load_raw_data processor true None ;;;
      main rest yr
  end.

End Downloader.

(** ** The templates of the specification *)

(** The file templates of the registry table of the specification: the
    text that follows [YYYYMM] for each city with a template. *)
Definition documented_template : gmap string string :=
  list_to_map
    [ ("chicago", "-divvy-tripdata");
      ("new_york", "-citibike-tripdata");
      ("columbus", "-cogo-tripdata");
      ("washington_dc", "-capitalbikeshare-tripdata");
      ("portland", ".csv") ].

(** The decimal digit [0..9] as a character. *)
Definition digit (n : Z) : ascii := ascii_of_N (48 + Z.to_N n).

(** [YYYY] and [MM] of the templates: four digits of year, two of month. *)
Definition YYYY (y : Z) : string :=
  String (digit (y / 1000))
    (String (digit (y / 100 mod 10))
       (String (digit (y / 10 mod 10)) (String (digit (y mod 10)) ""))).

Definition MM (m : Z) : string :=
  String (digit (m / 10)) (String (digit (m mod 10)) "").

Definition YYYYMM (y m : Z) : string := YYYY y +:+ MM m.

(** The world after one more event. *)
Definition logged (e : event) (w : World) : World :=
  mkWorld (fs w) (trace w ++ [e]).

(** How the world may change while the module runs: directories stay, and
    the trace only grows. *)
Definition evolves (w w' : World) : Prop :=
  (forall p, fs w !! p = Some Dir -> fs w' !! p = Some Dir)
  /\ trace w `prefix_of` trace w'.

(** A computation under which the world only evolves. *)
Definition steady {A} (c : M A) : Prop :=
  forall w, evolves w (fst (c w)).

(** The world in which [load_raw_data] calls the availability probe: after
    the bootstrap of the directories has left the world [w0] and the search
    has been announced in the log. *)
Definition before_probe (self : DataDownloader) (w0 : World) : World :=
  logged (Log INFO ("Searching local directories for data from "
                      +:+ proper_city_name self +:+ "'s.")) w0.

(** The URLs requested so far, in the order of the requests. *)
Definition requested (t : list event) : list string :=
  flat_map (fun ev => match ev with Request u => [u] | _ => [] end) t.

(** A computation that issues no request. *)
Definition quiet {A} (c : M A) : Prop :=
  forall w, requested (trace (fst (c w))) = requested (trace w).

(** A computation that issues at most [n] requests. *)
Definition issues_at_most {A} (n : nat) (c : M A) : Prop :=
  forall w, exists l,
    requested (trace (fst (c w))) = requested (trace w) ++ l
    /\ (length l <= n)%nat.

(** ** A concrete environment, for the examples *)

Module Demo.

Definition no_fault : list event -> io_op -> option exn := fun _ _ => None.

(** An archive is a first byte [x01] followed by the bytes of its only
    member, the CSV of January 2024; other non-empty bytes are an archive
    without members; no bytes at all are not an archive. *)
Definition unzip (b : bytes) : option (gmap string bytes) :=
  match b with
  | [] => None
  | Byte.x01 :: r => Some {[ "202401-divvy-tripdata.csv" := r ]}
  | _ :: _ => Some ∅
  end.

(** A CSV with one row per byte. *)
Definition parse_csv (b : bytes) : outcome (list Byte.byte) := Return b.

Definition jan_url : string :=
  "https://divvy-tripdata.s3.amazonaws.com/202401-divvy-tripdata.zip".
Definition feb_url : string :=
  "https://divvy-tripdata.s3.amazonaws.com/202402-divvy-tripdata.zip".

(** The January archive downloads, the February request fails at transport
    level, every other URL answers 200 with an empty body. *)
Definition http (t : list event) (u : string) : outcome Response :=
  if String.eqb u jan_url then Return (mkResponse 200 [Byte.x01; Byte.x0a; Byte.x0b])
  else if String.eqb u feb_url then Raise (RequestException "connection reset")
  else Return (mkResponse 200 []).

Definition http_down (t : list event) (u : string) : outcome Response :=
  Raise (RequestException "connection refused").

Definition http_404 (t : list event) (u : string) : outcome Response :=
  Return (mkResponse 404 []).

Definition RAW_DATA_DIR : path := ["data"; "raw"].

Definition make_needed_directories (f : gmap path node)
  : gmap path node * outcome unit := (f, Return tt).

Definition proper_city_name (city : string) : outcome string := Return city.

(** The Kelvin sign, U+212A, in UTF-8. *)
Definition kelvin_sign : string :=
  String (ascii_of_nat 226)
    (String (ascii_of_nat 132) (String (ascii_of_nat 170) EmptyString)).

(** [str.lower] on the one string with a character outside ASCII that the
    examples use: the Kelvin sign lowers to ["k"]. *)
Definition unicode_lower (s : string) : string :=
  if String.eqb s ("NEW_YOR" +:+ kelvin_sign) then "new_york" else s.

Definition registry : gmap string string :=
  list_to_map
    [ ("bay_area", "bay-wheels");
      ("chicago", "divvybikes");
      ("new_york", "citibikenyc");
      ("columbus", "cogobikeshare");
      ("washington_dc", "capitalbikeshare");
      ("portland", "biketownpdx") ].

Definition chicago : DataDownloader :=
  mkDataDownloader 2024 "chicago" "chicago" registry.
Definition bay_area : DataDownloader :=
  mkDataDownloader 2024 "bay_area" "bay_area" registry.

(** A raw-data root with the directory of Chicago and nothing cached. *)
Definition empty_cache : World :=
  mkWorld
    (list_to_map
       [ ([], Dir); (["data"], Dir); (["data"; "raw"], Dir);
         (["data"; "raw"; "chicago"], Dir) ])
    [].

(** The same root once January 2024 has been downloaded and extracted. *)
Definition january_cached : World :=
  mkWorld
    (list_to_map
       [ ([], Dir); (["data"], Dir); (["data"; "raw"], Dir);
         (["data"; "raw"; "chicago"], Dir);
         (["data"; "raw"; "chicago"; "202401-divvy-tripdata"], Dir);
         (["data"; "raw"; "chicago"; "202401-divvy-tripdata";
           "202401-divvy-tripdata.csv"], File [Byte.x0a; Byte.x0b]) ])
    [].

(** The root with March 2024 in the cache of Chicago, and nothing else. *)
Definition march_cached : World :=
  mkWorld
    (list_to_map
       [ ([], Dir); (["data"], Dir); (["data"; "raw"], Dir);
         (["data"; "raw"; "chicago"], Dir);
         (["data"; "raw"; "chicago"; "202403-divvy-tripdata"], Dir);
         (["data"; "raw"; "chicago"; "202403-divvy-tripdata";
           "202403-divvy-tripdata.csv"], File [Byte.x0c]) ])
    [].

Definition portland_2021 : DataDownloader :=
  mkDataDownloader 2021 "portland" "portland" registry.

End Demo.

(** * Properties *)

(** ** Strings *)

Lemma has_slash_app (a b : string) :
  has_slash (a +:+ b) = has_slash a || has_slash b.
Proof.
  induction a as [|c a IH]; simpl; [reflexivity|].
  rewrite IH. apply orb_assoc.
Qed.

Lemma has_slash_uint (d : Decimal.uint) :
  has_slash (NilEmpty.string_of_uint d) = false.
Proof. induction d; simpl; auto. Qed.

Lemma has_slash_str_of_int (n : Z) : has_slash (str_of_int n) = false.
Proof.
  unfold str_of_int, NilZero.string_of_int, NilZero.string_of_uint.
  destruct (Z.to_int n) as [d|d]; destruct d; simpl;
    auto using has_slash_uint.
Qed.

Lemma has_slash_format_02d (n : Z) : has_slash (format_02d n) = false.
Proof.
  unfold format_02d.
  destruct (String.length (str_of_int n) <? 2)%nat; simpl;
    apply has_slash_str_of_int.
Qed.

Lemma after_last_slash_no_slash (s : string) :
  has_slash s = false -> after_last_slash s = s.
Proof. destruct s; simpl; [reflexivity|]. now intros ->. Qed.

Lemma after_last_slash_app (p b : string) :
  has_slash b = false ->
  after_last_slash (p +:+ String "/" b) = b.
Proof.
  intros Hb. induction p as [|c p IH]; simpl.
  - now apply after_last_slash_no_slash.
  - rewrite has_slash_app. simpl. rewrite orb_true_r, orb_true_r. exact IH.
Qed.

Lemma length_append (a b : string) :
  String.length (a +:+ b) = (String.length a + String.length b)%nat.
Proof. induction a; simpl; auto. Qed.

Lemma substring_append_prefix (a b : string) :
  String.substring 0 (String.length a) (a +:+ b) = a.
Proof. induction a; simpl; [now destruct b | now f_equal]. Qed.

Lemma drop_last_zip (f : string) : drop_last 4 (f +:+ ".zip") = f.
Proof.
  unfold drop_last. rewrite length_append. simpl String.length.
  replace (String.length f + 4 - 4)%nat with (String.length f) by lia.
  apply substring_append_prefix.
Qed.

Lemma In_py_range (a b x : Z) : a <= x < b -> In x (py_range a b).
Proof.
  intros H. unfold py_range. apply in_map_iff.
  exists (Z.to_nat (x - a)). split; [lia|].
  apply in_seq. lia.
Qed.

(** ** The file-name template *)

Lemma str_of_int_YYYY (y : Z) : 1000 <= y <= 9999 -> str_of_int y = YYYY y.
Proof.
  intros Hy.
  assert (Hall : forallb (fun y => String.eqb (str_of_int y) (YYYY y))
                   (py_range 1000 10000) = true) by (vm_compute; reflexivity).
  rewrite forallb_forall in Hall.
  apply String.eqb_eq, Hall, In_py_range. lia.
Qed.

Lemma format_02d_MM (m : Z) : 0 <= m <= 99 -> format_02d m = MM m.
Proof.
  intros Hm.
  assert (Hall : forallb (fun m => String.eqb (format_02d m) (MM m))
                   (py_range 0 100) = true) by (vm_compute; reflexivity).
  rewrite forallb_forall in Hall.
  apply String.eqb_eq, Hall, In_py_range. lia.
Qed.

Ltac dict_cases :=
  cbn [list_to_map foldr fst snd uncurry];
  rewrite ?lookup_insert; repeat case_decide; rewrite ?lookup_empty.

(** [get_data_file_name] is a lookup of the city in the template table. *)
Lemma get_data_file_name_eq (self : DataDownloader) (month : Z) :
  get_data_file_name self month =
    match documented_template !! city_name self with
    | Some sfx =>
        Return ((str_of_int (year self) +:+ format_02d month) +:+ sfx)
    | None => Raise (KeyError (city_name self))
    end.
Proof.
  unfold get_data_file_name, dict_getitem, documented_template.
  dict_cases; reflexivity.
Qed.

Lemma documented_template_no_slash (city sfx : string) :
  documented_template !! city = Some sfx -> has_slash sfx = false.
Proof.
  unfold documented_template. dict_cases; intros [= <-]; reflexivity.
Qed.

Lemma get_data_file_name_no_slash (self : DataDownloader) (month : Z) (f : string) :
  get_data_file_name self month = Return f -> has_slash f = false.
Proof.
  rewrite get_data_file_name_eq.
  destruct (documented_template !! city_name self) as [sfx|] eqn:E; [|discriminate].
  intros [= <-]. rewrite !has_slash_app, has_slash_str_of_int, has_slash_format_02d.
  simpl. eauto using documented_template_no_slash.
Qed.

(** C5. For a city with a documented template, a four-digit year and a
    month of the calendar, [get_data_file_name] returns [YYYYMM] followed by
    the template text of the city; it reads nothing but the city, the year
    and the month, so two instances that agree on them return the same name;
    Chicago, 2024, month 3 gives ["202403-divvy-tripdata"]. *)
Theorem get_data_file_name_matches_template
    (s1 s2 : DataDownloader) (month : Z) (sfx proper : string)
    (names : gmap string string)
    (Hcity : city_name s1 = city_name s2)
    (Hyear : year s1 = year s2)
    (Htemplate : documented_template !! city_name s1 = Some sfx)
    (Hy : 1000 <= year s1 <= 9999)
    (Hm : 1 <= month <= 12) :
  get_data_file_name s1 month = Return (YYYYMM (year s1) month +:+ sfx)
  /\ get_data_file_name s2 month = get_data_file_name s1 month
  /\ get_data_file_name (mkDataDownloader 2024 "chicago" proper names) 3
     = Return "202403-divvy-tripdata".
Proof.
  split; [|split].
  - rewrite get_data_file_name_eq, Htemplate.
    rewrite str_of_int_YYYY by lia. rewrite format_02d_MM by lia. reflexivity.
  - rewrite !get_data_file_name_eq, <- Hcity, <- Hyear. reflexivity.
  - reflexivity.
Qed.

(** ** The download URL *)

(** C4. For Portland and a year after 2020, [get_url_for_city_data] logs
    an error and returns no URL, whatever the month; for Portland, 2020,
    month 5 it returns the URL of the archive [202005.csv.zip]. *)
Theorem get_url_for_city_data_portland
    (yr month : Z) (proper : string) (names : gmap string string) (w : World)
    (Hyr : 2020 < yr) :
  get_url_for_city_data (mkDataDownloader yr "portland" proper names) month w
  = (logged (Log ERROR "Lyft doesn't provide data on Portland after 2020.") w,
     Return None)
  /\ get_url_for_city_data (mkDataDownloader 2020 "portland" proper names) 5 w
     = (w, Return
             (Some "https://s3.amazonaws.com/biketown-tripdata-public/202005.csv.zip")).
Proof.
  split.
  - unfold get_url_for_city_data. cbn [city_name year].
    replace (yr >? 2020) with true by (symmetry; apply Z.gtb_lt; lia).
    reflexivity.
  - reflexivity.
Qed.

(** ** Stepping through a computation *)

Lemma bind_unfold {A B} (c : M A) (k : A -> M B) (w : World) :
  bind c k w
  = match c w with
    | (w', Return a) => k a w'
    | (w', Raise e) => (w', Raise e)
    end.
Proof. reflexivity. Qed.

Lemma bind_step {A B} (c : M A) (k : A -> M B) (w w' : World) (a : A) :
  c w = (w', Return a) -> bind c k w = k a w'.
Proof. intros H. rewrite bind_unfold, H. reflexivity. Qed.

Lemma bind_fail {A B} (c : M A) (k : A -> M B) (w w' : World) (e : exn) :
  c w = (w', Raise e) -> bind c k w = (w', Raise e).
Proof. intros H. rewrite bind_unfold, H. reflexivity. Qed.

(** ** Directories persist, the trace grows

    No operation of the module removes a directory or writes a file over
    one ([os.remove] and [open] raise on a directory), and none erases an
    event of the trace. *)

Lemma evolves_refl (w : World) : evolves w w.
Proof. split; [auto | reflexivity]. Qed.

Lemma evolves_trans (w1 w2 w3 : World) :
  evolves w1 w2 -> evolves w2 w3 -> evolves w1 w3.
Proof. intros [D1 T1] [D2 T2]. split; [auto | etrans; eauto]. Qed.

Lemma evolves_same_trace (w : World) (f : gmap path node) :
  (forall p, fs w !! p = Some Dir -> f !! p = Some Dir) ->
  evolves w (mkWorld f (trace w)).
Proof. intros H. split; [exact H | reflexivity]. Qed.

Lemma steady_ret {A} (a : A) : steady (ret a).
Proof. intros w. apply evolves_refl. Qed.

Lemma steady_raise {A} (e : exn) : steady (@raise A e).
Proof. intros w. apply evolves_refl. Qed.

Lemma steady_lift {A} (o : outcome A) : steady (lift o).
Proof. intros w. apply evolves_refl. Qed.

Lemma steady_emit (e : event) : steady (emit e).
Proof. intros w. split; [auto | now apply prefix_app_r]. Qed.

Lemma steady_logger (lvl : level) (msg : string) : steady (logger lvl msg).
Proof. apply steady_emit. Qed.

Lemma steady_bind {A B} (c : M A) (k : A -> M B) :
  steady c -> (forall a, steady (k a)) -> steady (bind c k).
Proof.
  intros Hc Hk w. unfold bind.
  specialize (Hc w). destruct (c w) as [w1 [a|e]]; simpl in *.
  - eapply evolves_trans; [exact Hc | apply Hk].
  - exact Hc.
Qed.

Lemma steady_try {A} (c : M A) (h : exn -> M A) :
  steady c -> (forall e, steady (h e)) -> steady (try_except c h).
Proof.
  intros Hc Hh w. unfold try_except.
  specialize (Hc w). destruct (c w) as [w1 [a|e]]; simpl in *.
  - exact Hc.
  - eapply evolves_trans; [exact Hc | apply Hh].
Qed.

Lemma steady_cond {A} (b : World -> bool) (c1 c2 : M A) :
  steady c1 -> steady c2 ->
  steady (fun w => if b w then c1 w else c2 w).
Proof. intros H1 H2 w. destruct (b w); auto. Qed.

Create HintDb steady.
#[local] Hint Resolve steady_ret steady_raise steady_lift
  steady_emit steady_logger : steady.

Ltac steady_tac :=
  repeat first
    [ progress auto with steady
    | match goal with
      | |- steady (match ?x with _ => _ end) => destruct x
      | |- steady (if ?x then _ else _) => destruct x
      | |- steady (bind _ _) => apply steady_bind; [|intros]
      | |- steady (try_except _ _) => apply steady_try; [|intros]
      | |- steady (fun w => if _ then _ else _) => apply steady_cond
      end ].

Section PrimitivesSteady.

Variable io_fault : list event -> io_op -> option exn.
Variable unzip : bytes -> option (gmap string bytes).
Variable row : Type.
Variable parse_csv : bytes -> outcome (DataFrame row).
Variable http_get : list event -> string -> outcome Response.

Lemma steady_check_fault (op : io_op) : steady (check_fault io_fault op).
Proof.
  intros w. unfold check_fault.
  destruct (io_fault (trace w) op); apply evolves_refl.
Qed.

Lemma steady_os_mkdir (q : path) : steady (os_mkdir io_fault q).
Proof.
  apply steady_bind; [apply steady_check_fault|intros _].
  intros w.
  destruct (fs w !! q) as [n|] eqn:Eq; [apply evolves_refl|].
  destruct (fs w !! parent q) as [[|b]|]; try apply evolves_refl.
  apply evolves_same_trace. intros p H.
  rewrite lookup_insert. case_decide; [reflexivity | exact H].
Qed.

Lemma steady_makedirs_from (comps : list string) (base : path) :
  steady (makedirs_from io_fault base comps).
Proof.
  revert base. induction comps as [|c comps IH]; intros base; simpl.
  - apply steady_ret.
  - intros w.
    destruct (fs w !! (base ++ [c])) as [[|b]|] eqn:E.
    + apply IH.
    + apply evolves_refl.
    + clear E. revert w. apply steady_bind; [apply steady_os_mkdir|].
      intros _. apply IH.
Qed.

Lemma steady_write_file (q : path) (b : bytes) :
  steady (write_file io_fault q b).
Proof.
  apply steady_bind; [apply steady_check_fault|intros _].
  intros w.
  assert (Hins : fs w !! q <> Some Dir ->
                 evolves w (mkWorld (<[q := File b]> (fs w)) (trace w))).
  { intros Hq. apply evolves_same_trace. intros p H.
    rewrite lookup_insert. case_decide; [congruence | exact H]. }
  destruct (fs w !! q) as [[|b']|] eqn:Eq; [apply evolves_refl| |];
    (destruct (fs w !! parent q) as [[|b'']|];
       [|apply evolves_refl|apply evolves_refl]);
    apply Hins; congruence.
Qed.

Lemma steady_read_file (q : path) : steady (read_file io_fault q).
Proof.
  apply steady_bind; [apply steady_check_fault|intros _].
  intros w. destruct (fs w !! q) as [[|b]|]; apply evolves_refl.
Qed.

Lemma steady_os_remove (q : path) : steady (os_remove io_fault q).
Proof.
  apply steady_bind; [apply steady_check_fault|intros _].
  intros w.
  destruct (fs w !! q) as [[|b]|] eqn:Eq; try apply evolves_refl.
  apply evolves_same_trace. intros p H.
  rewrite lookup_delete. case_decide; [congruence | exact H].
Qed.

#[local] Hint Resolve steady_check_fault steady_os_mkdir
  steady_makedirs_from steady_write_file steady_read_file
  steady_os_remove : steady.

Lemma steady_ZipFile_extract (z : path) (member : string) (target : path) :
  steady (ZipFile_extract io_fault unzip z member target).
Proof. unfold ZipFile_extract. steady_tac. Qed.

Lemma steady_pd_read_csv (q : path) :
  steady (pd_read_csv io_fault row parse_csv q).
Proof. unfold pd_read_csv. steady_tac. Qed.

Lemma steady_pd_concat (data : DataFrame row) (x : local (option (DataFrame row))) :
  steady (pd_concat row data x).
Proof. unfold pd_concat. steady_tac. Qed.

Lemma steady_requests_get (url : string) : steady (requests_get http_get url).
Proof. intros w. split; [auto | now apply prefix_app_r]. Qed.

End PrimitivesSteady.

#[local] Hint Resolve steady_check_fault steady_os_mkdir
  steady_makedirs_from steady_write_file steady_read_file
  steady_os_remove steady_ZipFile_extract steady_pd_read_csv
  steady_pd_concat steady_requests_get : steady.

(** ** The archive name and the URL *)

Lemma zipfile_name_of_url (host f : string) :
  has_slash f = false ->
  get_zipfile_name (Some (host +:+ String "/" (f +:+ ".zip")))
  = Return (f +:+ ".zip").
Proof.
  intros Hf. unfold get_zipfile_name.
  rewrite after_last_slash_app
    by (rewrite has_slash_app, Hf; reflexivity).
  destruct f; reflexivity.
Qed.

(** For a city with a template (and not Portland after 2020) the URL is
    derived without any effect, and the archive name read back from the URL
    is the file name followed by [.zip]. *)
Lemma url_of_month (self : DataDownloader) (month : Z) (f : string) (w : World) :
  get_data_file_name self month = Return f ->
  String.eqb (city_name self) "portland" && (year self >? 2020) = false ->
  exists u,
    get_url_for_city_data self month w = (w, Return (Some u))
    /\ get_zipfile_name (Some u) = Return (f +:+ ".zip").
Proof.
  intros Hname Hsup.
  pose proof (get_data_file_name_no_slash _ _ _ Hname) as Hslash.
  pose proof Hname as Hcity. rewrite get_data_file_name_eq in Hcity.
  destruct (documented_template !! city_name self) as [sfx|] eqn:E;
    [clear Hcity|discriminate].
  unfold get_url_for_city_data. rewrite Hsup.
  unfold bind, lift, ret. rewrite Hname.
  revert E. unfold documented_template, dict_getitem.
  dict_cases; intros E; try discriminate.
  all: eexists; (split; [reflexivity|]).
  - now apply (zipfile_name_of_url "https://divvy-tripdata.s3.amazonaws.com").
  - now apply (zipfile_name_of_url "https://s3.amazonaws.com/tripdata").
  - now apply (zipfile_name_of_url "https://cogo-sys-data.s3.amazonaws.com").
  - now apply (zipfile_name_of_url "https://s3.amazonaws.com/capitalbikeshare-data").
  - now apply (zipfile_name_of_url "https://s3.amazonaws.com/biketown-tripdata-public").
Qed.

Lemma removelast_app2 {A} (l : list A) (a b : A) :
  removelast (l ++ [a; b]) = l ++ [a].
Proof.
  induction l as [|x l IH]; [reflexivity|].
  simpl. rewrite IH. destruct l; reflexivity.
Qed.

(** ** The class *)

Section DownloaderProperties.

Variable io_fault : list event -> io_op -> option exn.
Variable unzip : bytes -> option (gmap string bytes).
Variable row : Type.
Variable parse_csv : bytes -> outcome (DataFrame row).
Variable http_get : list event -> string -> outcome Response.
Variable RAW_DATA_DIR : path.
Variable make_needed_directories :
  gmap path node -> gmap path node * outcome unit.
Variable config_proper_city_name : string -> outcome string.
Variable unicode_lower : string -> string.
Variable now_year now_month : Z.

Local Abbreviation DataFrame := (DataFrame row).
Local Abbreviation city_has_data := (city_has_data http_get).
Local Abbreviation data_file_exists := (data_file_exists RAW_DATA_DIR).
Local Abbreviation download_attempt :=
  (download_attempt io_fault unzip row parse_csv http_get RAW_DATA_DIR).
Local Abbreviation download_one_file_of_raw_data :=
  (download_one_file_of_raw_data io_fault unzip row parse_csv http_get RAW_DATA_DIR).
Local Abbreviation load_one_month :=
  (load_one_month io_fault unzip row parse_csv http_get RAW_DATA_DIR).
Local Abbreviation load_months :=
  (load_months io_fault unzip row parse_csv http_get RAW_DATA_DIR).
Local Abbreviation months_to_query_for :=
  (months_to_query_for now_year now_month).
Local Abbreviation load_raw_data :=
  (load_raw_data io_fault unzip row parse_csv http_get RAW_DATA_DIR
     make_needed_directories now_year now_month).
Local Abbreviation init := (init config_proper_city_name unicode_lower).
Local Abbreviation lower := (lower unicode_lower).
Local Abbreviation all_downloaded :=
  (all_downloaded io_fault unzip row parse_csv http_get RAW_DATA_DIR).
Local Abbreviation downloaded_rows :=
  (downloaded_rows io_fault unzip row parse_csv http_get RAW_DATA_DIR).
Local Abbreviation run_make_needed_directories :=
  (run_make_needed_directories make_needed_directories).

(** The [except] clause of [download_one_file_of_raw_data]. *)
Local Abbreviation log_and_give_up :=
  (fun error : exn => emit (LogException error) ;;; ret (@None DataFrame)).

Lemma steady_city_has_data (self : DataDownloader) : steady (city_has_data self).
Proof. unfold city_has_data. steady_tac. Qed.

Lemma steady_get_url_for_city_data (self : DataDownloader) (month : Z) :
  steady (get_url_for_city_data self month).
Proof. unfold get_url_for_city_data. steady_tac. Qed.

Lemma steady_data_file_exists (self : DataDownloader) (f : string) :
  steady (data_file_exists self f).
Proof. intros w. apply evolves_refl. Qed.

Lemma steady_download_attempt (self : DataDownloader) (u zn : string) (keep : bool) :
  steady (download_attempt self u zn keep).
Proof. unfold download_attempt. steady_tac. Qed.

Lemma steady_download_one_file_of_raw_data (self : DataDownloader) (month : Z)
    (keep : bool) :
  steady (download_one_file_of_raw_data self month keep).
Proof.
  unfold download_one_file_of_raw_data.
  pose proof steady_get_url_for_city_data.
  pose proof steady_download_attempt.
  steady_tac.
Qed.

Lemma steady_load_one_month (self : DataDownloader) (just_download : bool)
    (month : Z) (data : DataFrame) (v : local (option DataFrame)) :
  steady (load_one_month self just_download month data v).
Proof.
  unfold load_one_month.
  pose proof steady_data_file_exists.
  pose proof steady_download_one_file_of_raw_data.
  steady_tac.
Qed.

Lemma steady_load_months (self : DataDownloader) (just_download : bool)
    (months : list Z) (data : DataFrame) (v : local (option DataFrame)) :
  steady (load_months self just_download months data v).
Proof.
  revert data v. induction months as [|m months IH]; intros data v; simpl.
  - apply steady_ret.
  - apply steady_bind; [apply steady_load_one_month|]. intros st. apply IH.
Qed.

Lemma load_months_cons (self : DataDownloader) (just_download : bool)
    (month : Z) (rest : list Z) (data : DataFrame)
    (v : local (option DataFrame)) (w : World) :
  load_months self just_download (month :: rest) data v w
  = (st <- load_one_month self just_download month data v ;;
     load_months self just_download rest (fst st) (snd st)) w.
Proof. reflexivity. Qed.

(** The loop only ever appends to [data]. *)
Lemma load_one_month_appends (self : DataDownloader) (just_download : bool)
    (month : Z) (data : DataFrame) (v : local (option DataFrame))
    (w w' : World) (st : DataFrame * local (option DataFrame)) :
  load_one_month self just_download month data v w = (w', Return st) ->
  data `prefix_of` fst st.
Proof.
  unfold load_one_month, bind.
  destruct (lift _ w) as [w1 [f|e]]; [|discriminate].
  match goal with
  | |- context [match ?c w1 with _ => _ end] =>
      destruct (c w1) as [w2 [x|e]]; [|discriminate]
  end.
  destruct x as [|[df|]]; simpl; intros [= <- <-]; simpl.
  - now apply prefix_app_r.
  - reflexivity.
Qed.

Lemma load_months_appends (self : DataDownloader) (just_download : bool)
    (months : list Z) (data : DataFrame) (v : local (option DataFrame))
    (w w' : World) (d : DataFrame) :
  load_months self just_download months data v w = (w', Return d) ->
  data `prefix_of` d.
Proof.
  revert data v w. induction months as [|m months IH]; intros data v w; simpl.
  - intros [= <- <-]. reflexivity.
  - unfold bind.
    destruct (load_one_month self just_download m data v w)
      as [w1 [st|e]] eqn:E; [|discriminate].
    intros H. etrans; [eapply load_one_month_appends, E | eapply IH, H].
Qed.

(** ** The single-month download never raises from its [try] block *)

Lemma download_one_file_of_raw_data_eq (self : DataDownloader) (month : Z)
    (keep : bool) (f : string) (w : World) :
  get_data_file_name self month = Return f ->
  String.eqb (city_name self) "portland" && (year self >? 2020) = false ->
  exists u,
    get_url_for_city_data self month w = (w, Return (Some u))
    /\ download_one_file_of_raw_data self month keep w
       = try_except (download_attempt self u (f +:+ ".zip") keep)
           log_and_give_up w.
Proof.
  intros Hname Hsup.
  destruct (url_of_month self month f w Hname Hsup) as (u & Hu & Hz).
  exists u. split; [exact Hu|].
  unfold download_one_file_of_raw_data, bind at 1. rewrite Hu.
  unfold bind at 1, lift. rewrite Hz. reflexivity.
Qed.

Lemma load_one_month_miss (self : DataDownloader) (just_download : bool)
    (month : Z) (data : DataFrame) (v : local (option DataFrame))
    (f : string) (w : World) :
  get_data_file_name self month = Return f ->
  path_exists (RAW_DATA_DIR ++ [city_name self; f]) w = false ->
  load_one_month self just_download month data v w
  = match download_one_file_of_raw_data self month false w with
    | (w', Return r) => (w', Return (data ++ rows_of r, Bound r))
    | (w', Raise e) => (w', Raise e)
    end.
Proof.
  intros Hname Hmiss.
  assert (Hex : data_file_exists self f w = (w, Return false))
    by (unfold data_file_exists; now rewrite Hmiss).
  unfold load_one_month. rewrite bind_unfold. unfold lift at 1. rewrite Hname.
  destruct just_download; rewrite bind_unfold, bind_unfold, Hex, bind_unfold;
    destruct (download_one_file_of_raw_data self month false w)
      as [w' [[df|]|e]]; cbn; rewrite ?app_nil_r; reflexivity.
Qed.

(** The [try] block issues the request for the archive, whatever comes
    next. *)
Lemma download_attempt_requests (self : DataDownloader) (u zn : string)
    (keep : bool) (w : World) :
  In (Request u) (trace (fst (download_attempt self u zn keep w))).
Proof.
  unfold download_attempt. rewrite bind_unfold. cbn [logger emit].
  rewrite bind_unfold. unfold requests_get at 1.
  destruct (http_get _ u) as [resp|e]; cbn [fst snd].
  - match goal with
    | |- In _ (trace (fst (?c ?w1))) =>
        assert (Hs : steady c) by steady_tac;
        destruct (Hs w1) as [_ [k Hk]]; rewrite Hk
    end.
    cbn [trace]. rewrite !in_app_iff. left. right. now left.
  - cbn [trace]. rewrite !in_app_iff. right. now left.
Qed.

(** A batch in which every month is downloaded never raises, whichever
    downloads fail. *)
Lemma load_months_all_downloaded (self : DataDownloader) (just_download : bool)
    (months : list Z) (data : DataFrame) (v : local (option DataFrame))
    (w : World) :
  String.eqb (city_name self) "portland" && (year self >? 2020) = false ->
  all_downloaded self months w ->
  exists w2,
    load_months self just_download months data v w
    = (w2, Return (data ++ downloaded_rows self months w)).
Proof.
  intros Hsup. revert data v w.
  induction months as [|month rest IH]; intros data v w Hall.
  - exists w. cbn. rewrite app_nil_r. reflexivity.
  - destruct Hall as [(f & Hname & Hmiss) Hrest].
    rewrite load_months_cons, bind_unfold.
    rewrite (load_one_month_miss self just_download month data v f w Hname Hmiss).
    cbn [all_downloaded downloaded_rows] in *.
    destruct (download_one_file_of_raw_data_eq self month false f w Hname Hsup)
      as (u & _ & Hdl).
    revert Hrest. rewrite Hdl. unfold try_except.
    destruct (download_attempt self u (f +:+ ".zip") false w) as [w1 [r|e]];
      cbn [fst snd]; intros Hrest.
    + destruct (IH (data ++ rows_of r) (Bound r) w1 Hrest) as [w2 H2].
      exists w2. rewrite H2, app_assoc. reflexivity.
    + cbn [bind emit ret fst snd rows_of] in *.
      destruct (IH (data ++ []) (Bound None) _ Hrest) as [w2 H2].
      exists w2. rewrite H2, app_nil_r. reflexivity.
Qed.

(** One iteration of the loop on a month that is not cached, of a city whose
    URL can be derived: whatever exception the [try] block of the
    single-month download raises (at the request, the write, the extraction
    or later), the download returns [None] instead of raising, and the loop
    goes on with the remaining months, [data] unchanged; when the block
    succeeds its rows are appended to [data] and the loop goes on in the
    same way.  The request for the archive was issued in both cases, and
    whatever the loop has accumulated in [data] is a prefix of the table the
    loop returns, if it returns one.  A loop in which every month has to be
    downloaded never raises, whichever downloads fail, and returns the rows
    of the months that succeeded. *)
Lemma failed_month_does_not_abort_batch
    (self : DataDownloader) (just_download : bool) (month : Z) (rest : list Z)
    (data : DataFrame) (v : local (option DataFrame)) (f : string) (w : World)
    (Hname : get_data_file_name self month = Return f)
    (Hsupported :
       String.eqb (city_name self) "portland" && (year self >? 2020) = false)
    (Hmiss : path_exists (RAW_DATA_DIR ++ [city_name self; f]) w = false) :
  exists u,
    get_url_for_city_data self month w = (w, Return (Some u))
    /\ In (Request u) (trace (fst (download_attempt self u (f +:+ ".zip") false w)))
    /\ match download_attempt self u (f +:+ ".zip") false w with
       | (w1, Raise e) =>
           download_one_file_of_raw_data self month false w
           = (logged (LogException e) w1, Return None)
           /\ load_months self just_download (month :: rest) data v w
              = load_months self just_download rest data (Bound None)
                  (logged (LogException e) w1)
       | (w1, Return r) =>
           download_one_file_of_raw_data self month false w = (w1, Return r)
           /\ load_months self just_download (month :: rest) data v w
              = load_months self just_download rest (data ++ rows_of r) (Bound r) w1
       end
    /\ (forall months d0 v0 w0 w2 d,
          load_months self just_download months d0 v0 w0 = (w2, Return d) ->
          d0 `prefix_of` d)
    /\ (forall months d0 v0 w0,
          all_downloaded self months w0 ->
          exists w2,
            load_months self just_download months d0 v0 w0
            = (w2, Return (d0 ++ downloaded_rows self months w0))).
Proof.
  destruct (download_one_file_of_raw_data_eq self month false f w Hname Hsupported)
    as (u & Hu & Hdl).
  exists u. split; [exact Hu|]. split; [|split; [|split]].
  - apply download_attempt_requests.
  - rewrite load_months_cons, bind_unfold.
    rewrite (load_one_month_miss self just_download month data v f w Hname Hmiss).
    rewrite Hdl. unfold try_except.
    destruct (download_attempt self u (f +:+ ".zip") false w) as [w1 [r|e]].
    + split; reflexivity.
    + split; [reflexivity|]. simpl. rewrite app_nil_r. reflexivity.
  - intros months d0 v0 w0 w2 d H. eapply load_months_appends, H.
  - intros months d0 v0 w0. now apply load_months_all_downloaded.
Qed.

(** ** What a failed download leaves behind *)

Lemma data_file_exists_dir (self : DataDownloader) (f : string) (w : World) :
  fs w !! (RAW_DATA_DIR ++ [city_name self; f]) = Some Dir ->
  snd (data_file_exists self f w) = Return true.
Proof.
  intros H. unfold data_file_exists, path_exists. cbv zeta. cbn [snd].
  rewrite H.
  rewrite bool_decide_eq_true_2 by eauto. reflexivity.
Qed.

Lemma data_file_exists_false (self : DataDownloader) (f : string) (w : World) :
  snd (data_file_exists self f w) = Return false ->
  fs w !! (RAW_DATA_DIR ++ [city_name self; f]) = None.
Proof.
  unfold data_file_exists, path_exists. cbv zeta. cbn [snd].
  destruct (fs w !! _) as [n|]; [|reflexivity].
  rewrite bool_decide_eq_true_2 by eauto. discriminate.
Qed.

Lemma get_url_some_supported (self : DataDownloader) (month : Z) (u : string)
    (w : World) :
  get_url_for_city_data self month w = (w, Return (Some u)) ->
  String.eqb (city_name self) "portland" && (year self >? 2020) = false.
Proof.
  unfold get_url_for_city_data.
  destruct (String.eqb (city_name self) "portland" && (year self >? 2020));
    [discriminate | reflexivity].
Qed.

Lemma os_mkdir_ok (p : path) (w : World) :
  io_fault (trace w) (OpMkdir p) = None ->
  fs w !! p = None ->
  fs w !! parent p = Some Dir ->
  os_mkdir io_fault p w = (mkWorld (<[p := Dir]> (fs w)) (trace w), Return tt).
Proof.
  intros Hfault Hp Hparent. unfold os_mkdir. rewrite bind_unfold.
  unfold check_fault. rewrite Hfault, Hp, Hparent. reflexivity.
Qed.

(** The steps of the [try] block up to the creation of the directory. *)
Lemma download_attempt_mkdir (self : DataDownloader) (u f : string)
    (keep : bool) (resp : Response) (w : World) :
  fs w !! (RAW_DATA_DIR ++ [city_name self; f]) = None ->
  fs w !! (RAW_DATA_DIR ++ [city_name self]) = Some Dir ->
  (forall t, io_fault t (OpMkdir (RAW_DATA_DIR ++ [city_name self; f])) = None) ->
  http_get (trace w ++ [Log INFO ("Downloading " +:+ f +:+ ".zip")]) u
  = Return resp ->
  download_attempt self u (f +:+ ".zip") keep w
  = (write_file io_fault (RAW_DATA_DIR ++ [city_name self; f +:+ ".zip"])
       (content resp) ;;;
     ZipFile_extract io_fault unzip
       (RAW_DATA_DIR ++ [city_name self; f +:+ ".zip"]) (f +:+ ".csv")
       (RAW_DATA_DIR ++ [city_name self; f]) ;;;
     (if negb keep
      then os_remove io_fault (RAW_DATA_DIR ++ [city_name self; f +:+ ".zip"])
      else ret tt) ;;;
     data_for_the_month <-
       pd_read_csv io_fault row parse_csv
         ((RAW_DATA_DIR ++ [city_name self; f]) ++ [f +:+ ".csv"]) ;;
     ret (Some data_for_the_month))
      (mkWorld (<[RAW_DATA_DIR ++ [city_name self; f] := Dir]> (fs w))
         (trace w ++ [Log INFO ("Downloading " +:+ f +:+ ".zip"); Request u;
                      Log SUCCESS "Download successful!"])).
Proof.
  intros Hmiss Hparent Hfault Hresp.
  match goal with |- _ = ?r => set (rhs := r) end.
  unfold download_attempt. rewrite drop_last_zip.
  erewrite bind_step by reflexivity.
  erewrite bind_step
    by (unfold requests_get; cbn [trace fs]; rewrite Hresp; reflexivity).
  erewrite bind_step by reflexivity.
  erewrite bind_step.
  2:{ unfold path_exists. cbn [fs]. rewrite Hmiss.
      rewrite bool_decide_eq_false_2 by (intros [? ?]; discriminate).
      cbn [negb]. apply os_mkdir_ok; cbn [fs trace]; auto.
      unfold parent. now rewrite removelast_app2. }
  subst rhs. cbn [fs trace]. rewrite <- !app_assoc. reflexivity.
Qed.

Lemma write_file_cases (p : path) (b : bytes) (w : World) :
  (exists e, write_file io_fault p b w = (w, Raise e))
  \/ write_file io_fault p b w
     = (mkWorld (<[p := File b]> (fs w)) (trace w), Return tt).
Proof.
  unfold write_file. rewrite bind_unfold. unfold check_fault.
  destruct (io_fault (trace w) (OpWrite p)) as [e|]; [left; eauto|].
  destruct (fs w !! p) as [[|b']|];
    destruct (fs w !! parent p) as [[|b'']|];
    (left; eexists; reflexivity) || (right; reflexivity).
Qed.

Lemma read_file_cases (p : path) (b : bytes) (w : World) :
  fs w !! p = Some (File b) ->
  (exists e, read_file io_fault p w = (w, Raise e))
  \/ read_file io_fault p w = (w, Return b).
Proof.
  intros Hp. unfold read_file. rewrite bind_unfold. unfold check_fault.
  destruct (io_fault (trace w) (OpRead p)) as [e|]; [left; eauto|].
  rewrite Hp. right. reflexivity.
Qed.

(** An archive that cannot be opened, or that lacks the member asked for,
    is never extracted: [extract] raises and writes nothing. *)
Lemma ZipFile_extract_fails (z : path) (member : string) (target : path)
    (b : bytes) (w : World) :
  fs w !! z = Some (File b) ->
  unzip b = None \/ (exists a, unzip b = Some a /\ a !! member = None) ->
  exists e, ZipFile_extract io_fault unzip z member target w = (w, Raise e).
Proof.
  intros Hz Hbad. unfold ZipFile_extract.
  destruct (read_file_cases z b w Hz) as [[e He]|Hr].
  - exists e. now apply bind_fail.
  - erewrite bind_step by exact Hr.
    destruct Hbad as [-> | (a & -> & ->)]; eexists; reflexivity.
Qed.

Lemma path_ne_child (l : path) (a b c : string) :
  l ++ [a; b; c] <> l ++ [a; b].
Proof. intros H. apply app_inv_head in H. discriminate. Qed.

Lemma path_ne_sibling_child (l : path) (a b c d : string) :
  l ++ [a; b; c] <> l ++ [a; d].
Proof. intros H. apply app_inv_head in H. discriminate. Qed.

(** The request that fails: the [try] block raises at [requests.get], before
    the directory of the month is created, and the [except] clause only
    logs.  The file system is as it was. *)
Lemma unanswered_download_changes_no_file (self : DataDownloader) (month : Z)
    (keep : bool) (f u : string) (e : exn) (w : World) :
  get_data_file_name self month = Return f ->
  get_url_for_city_data self month w = (w, Return (Some u)) ->
  http_get (trace w ++ [Log INFO ("Downloading " +:+ f +:+ ".zip")]) u
  = Raise e ->
  download_one_file_of_raw_data self month keep w
  = (mkWorld (fs w)
       (trace w ++ [Log INFO ("Downloading " +:+ f +:+ ".zip"); Request u;
                    LogException e]),
     Return None).
Proof.
  intros Hname Hurl Hfail.
  pose proof (get_url_some_supported _ _ _ _ Hurl) as Hsup.
  destruct (download_one_file_of_raw_data_eq self month keep f w Hname Hsup)
    as (u' & Hu' & ->).
  assert (u' = u) by congruence. subst u'.
  unfold try_except, download_attempt.
  erewrite bind_step by reflexivity.
  erewrite bind_fail
    by (unfold requests_get; cbn [trace fs]; rewrite Hfail; reflexivity).
  cbn. rewrite <- !app_assoc. reflexivity.
Qed.

(** The request that is answered: the directory of the month is created
    next, and it is there after the call whatever follows. *)
Lemma answered_download_leaves_cache_entry
    (self : DataDownloader) (month : Z) (f u : string) (resp : Response)
    (w : World)
    (Hname : get_data_file_name self month = Return f)
    (Hurl : get_url_for_city_data self month w = (w, Return (Some u)))
    (Hmiss : snd (data_file_exists self f w) = Return false)
    (Hcity_dir : fs w !! (RAW_DATA_DIR ++ [city_name self]) = Some Dir)
    (Hmkdir : forall t,
        io_fault t (OpMkdir (RAW_DATA_DIR ++ [city_name self; f])) = None)
    (Hresp :
       http_get (trace w ++ [Log INFO ("Downloading " +:+ f +:+ ".zip")]) u
       = Return resp) :
  let w' := fst (download_one_file_of_raw_data self month false w) in
  let csv := RAW_DATA_DIR ++ [city_name self; f; f +:+ ".csv"] in
  snd (data_file_exists self f w') = Return true
  /\ (forall just_download months data v,
        snd (data_file_exists self f
               (fst (load_months self just_download months data v w')))
        = Return true)
  /\ (forall w1 e,
        download_attempt self u (f +:+ ".zip") false w = (w1, Raise e) ->
        download_one_file_of_raw_data self month false w
        = (logged (LogException e) w1, Return None))
  /\ (unzip (content resp) = None
      \/ (exists a, unzip (content resp) = Some a /\ a !! (f +:+ ".csv") = None) ->
      fs w !! csv = None ->
      snd (download_one_file_of_raw_data self month false w) = Return None
      /\ fs w' !! csv = None).
Proof.
  intros w' csv.
  pose proof (get_url_some_supported _ _ _ _ Hurl) as Hsup.
  destruct (download_one_file_of_raw_data_eq self month false f w Hname Hsup)
    as (u' & Hu' & Hdl).
  assert (u' = u) by congruence. subst u'. clear Hu'.
  apply data_file_exists_false in Hmiss.
  pose proof (download_attempt_mkdir self u f false resp w
                Hmiss Hcity_dir Hmkdir Hresp) as Hatt.
  set (wd := mkWorld _ _) in Hatt.
  assert (Hdir : fs w' !! (RAW_DATA_DIR ++ [city_name self; f]) = Some Dir).
  { subst w'. rewrite Hdl. unfold try_except. rewrite Hatt.
    match goal with
    | |- context [bind ?c ?k wd] =>
        assert (Hs : steady (bind c k)) by steady_tac;
        destruct (Hs wd) as [Hd _];
        destruct (bind c k wd) as [w1 [r|e]]
    end; cbn [fst] in *; apply Hd; subst wd; cbn [fs];
      apply lookup_insert_eq. }
  split; [|split; [|split]].
  - now apply data_file_exists_dir.
  - intros just_download months data v. apply data_file_exists_dir.
    now apply (steady_load_months self just_download months data v w').
  - intros w1 e Hraise. rewrite Hdl. unfold try_except. rewrite Hraise.
    reflexivity.
  - intros Hbad Hcsv.
    assert (Hwd : fs wd !! csv = None).
    { subst wd csv. cbn [fs]. rewrite lookup_insert_ne; [exact Hcsv|].
      intros H. symmetry in H. revert H. apply path_ne_child. }
    assert (Hfail : exists w1 e,
               download_attempt self u (f +:+ ".zip") false w = (w1, Raise e)
               /\ fs w1 !! csv = None).
    { rewrite Hatt.
      destruct (write_file_cases
                  (RAW_DATA_DIR ++ [city_name self; f +:+ ".zip"])
                  (content resp) wd) as [[e He]|Hw].
      - exists wd, e. split; [now apply bind_fail | exact Hwd].
      - erewrite bind_step by exact Hw.
        set (we := mkWorld _ _).
        assert (Hwe : fs we !! csv = None).
        { subst we csv. cbn [fs]. rewrite lookup_insert_ne; [exact Hwd|].
          intros H. symmetry in H. revert H. apply path_ne_sibling_child. }
        destruct (ZipFile_extract_fails
                    (RAW_DATA_DIR ++ [city_name self; f +:+ ".zip"])
                    (f +:+ ".csv") (RAW_DATA_DIR ++ [city_name self; f])
                    (content resp) we) as [e He].
        + subst we. cbn [fs]. apply lookup_insert_eq.
        + exact Hbad.
        + exists we, e. split; [now apply bind_fail | exact Hwe]. }
    destruct Hfail as (w1 & e & Hraise & Hnone).
    subst w'. rewrite Hdl. unfold try_except. rewrite Hraise.
    split; [reflexivity | exact Hnone].
Qed.

(** C10, as the code has it. The [try] block creates the directory of the
    month after the request for the archive and before it writes and
    extracts the archive.  For a month that is not cached, with the
    directory of the city in place and [os.mkdir] not failing:
    - when the request is answered, the directory is there after the call
      whatever happens next: if the block then raises, the download returns
      [None], yet the cache check of that month answers true from then on,
      also after any further run of the batch loop; and when the archive
      cannot be opened or lacks the CSV, no CSV has been written below the
      directory;
    - when the request itself fails, the download returns [None] as well,
      but nothing has been created: the file system is as it was and the
      cache check of that month still answers false. *)
Theorem failed_download_leaves_cache_entry
    (self : DataDownloader) (month : Z) (f u : string) (w : World)
    (Hname : get_data_file_name self month = Return f)
    (Hurl : get_url_for_city_data self month w = (w, Return (Some u)))
    (Hmiss : snd (data_file_exists self f w) = Return false)
    (Hcity_dir : fs w !! (RAW_DATA_DIR ++ [city_name self]) = Some Dir)
    (Hmkdir : forall t,
        io_fault t (OpMkdir (RAW_DATA_DIR ++ [city_name self; f])) = None) :
  let w' := fst (download_one_file_of_raw_data self month false w) in
  let csv := RAW_DATA_DIR ++ [city_name self; f; f +:+ ".csv"] in
  match
    http_get (trace w ++ [Log INFO ("Downloading " +:+ f +:+ ".zip")]) u
  with
  | Return resp =>
      snd (data_file_exists self f w') = Return true
      /\ (forall just_download months data v,
            snd (data_file_exists self f
                   (fst (load_months self just_download months data v w')))
            = Return true)
      /\ (forall w1 e,
            download_attempt self u (f +:+ ".zip") false w = (w1, Raise e) ->
            download_one_file_of_raw_data self month false w
            = (logged (LogException e) w1, Return None))
      /\ (unzip (content resp) = None
          \/ (exists a,
                 unzip (content resp) = Some a /\ a !! (f +:+ ".csv") = None) ->
          fs w !! csv = None ->
          snd (download_one_file_of_raw_data self month false w) = Return None
          /\ fs w' !! csv = None)
  | Raise e =>
      snd (download_one_file_of_raw_data self month false w) = Return None
      /\ fs w' = fs w
      /\ In (LogException e) (trace w')
      /\ snd (data_file_exists self f w') = Return false
  end.
Proof.
  intros w' csv.
  destruct (http_get _ u) as [resp|e] eqn:Hresp.
  - exact (answered_download_leaves_cache_entry self month f u resp w
             Hname Hurl Hmiss Hcity_dir Hmkdir Hresp).
  - subst w'.
    rewrite (unanswered_download_changes_no_file self month false f u e w
               Hname Hurl Hresp).
    cbn [fst snd fs trace]. split; [reflexivity|]. split; [reflexivity|].
    split.
    + rewrite in_app_iff. right. right. right. left. reflexivity.
    + revert Hmiss. unfold data_file_exists, path_exists. cbv zeta.
      cbn [snd fs]. exact (fun H => H).
Qed.

(** ** The availability probe *)

Lemma city_has_data_eq (self : DataDownloader) (service_name : string)
    (w : World) :
  service_names self !! city_name self = Some service_name ->
  let checking :=
    Log INFO ("Checking whether Lyft has published any data from "
                +:+ proper_city_name self) in
  let url := system_data_url self service_name in
  city_has_data self w
  = match http_get (trace w ++ [checking]) url with
    | Return response =>
        if status_code response =? 200 then
          (mkWorld (fs w)
             (trace w ++ [checking; Request url;
                          Log SUCCESS ("There's data from "
                                         +:+ proper_city_name self +:+ "!")]),
           Return true)
        else
          (mkWorld (fs w)
             (trace w ++ [checking; Request url;
                          Log ERROR ("Lyft hasn't published any data for "
                                       +:+ proper_city_name self)]),
           Return false)
    | Raise e => (mkWorld (fs w) (trace w ++ [checking; Request url]), Raise e)
    end.
Proof.
  intros Hregistry checking url. unfold city_has_data. rewrite Hregistry.
  erewrite bind_step by reflexivity.
  rewrite bind_unfold. unfold requests_get. cbn [fs trace].
  fold checking url.
  destruct (http_get (trace w ++ [checking]) url) as [response|e].
  - destruct (status_code response =? 200);
      (erewrite bind_step by reflexivity); cbn; rewrite <- !app_assoc;
      reflexivity.
  - rewrite <- !app_assoc. reflexivity.
Qed.

(** C6, as the code has it. For a city of the registry the probe issues one
    GET to the portal URL; it returns true when the answer has status 200
    and false for any other status; when the HTTP client raises, nothing
    catches the exception: the probe raises it. *)
Theorem city_has_data_follows_status
    (self : DataDownloader) (service_name : string) (w : World)
    (Hregistry : service_names self !! city_name self = Some service_name) :
  let checking :=
    Log INFO ("Checking whether Lyft has published any data from "
                +:+ proper_city_name self) in
  let url := system_data_url self service_name in
  match http_get (trace w ++ [checking]) url with
  | Return response =>
      snd (city_has_data self w)
      = Return (bool_decide (status_code response = 200))
  | Raise e => snd (city_has_data self w) = Raise e
  end
  /\ exists outcome_log,
       trace (fst (city_has_data self w))
       = trace w ++ [checking; Request url] ++ outcome_log
       /\ Forall (fun ev => forall u, ev <> Request u) outcome_log.
Proof.
  intros checking url.
  rewrite (city_has_data_eq self service_name w Hregistry).
  fold checking url.
  destruct (http_get (trace w ++ [checking]) url) as [response|e].
  - destruct (Z.eqb_spec (status_code response) 200) as [Hs|Hs].
    + rewrite bool_decide_eq_true_2 by exact Hs. split; [reflexivity|].
      eexists [_]. split; [reflexivity|]. repeat constructor; discriminate.
    + rewrite bool_decide_eq_false_2 by exact Hs. split; [reflexivity|].
      eexists [_]. split; [reflexivity|]. repeat constructor; discriminate.
  - split; [reflexivity|]. exists []. split; [reflexivity | constructor].
Qed.

(** ** The batch *)

Lemma load_raw_data_eq (self : DataDownloader) (just_download : bool)
    (months : option (list Z)) (w w0 : World) :
  run_make_needed_directories w = (w0, Return tt) ->
  load_raw_data self just_download months w
  = (has_data <- city_has_data self ;;
     if has_data then
       data' <- load_months self just_download
                  (months_to_query_for self months) [] Unbound ;;
       ret (Some data')
     else ret None) (before_probe self w0).
Proof.
  intros Hboot. unfold load_raw_data.
  erewrite bind_step by exact Hboot.
  erewrite bind_step by reflexivity. reflexivity.
Qed.

(** C7. When the availability probe answers false, the batch returns
    [None] in the very world the probe has left: nothing is requested,
    written or logged after the probe.  For a city of the registry the only
    request of the whole call is the GET of the probe to the portal URL. *)
Theorem load_raw_data_without_data
    (self : DataDownloader) (just_download : bool) (months : option (list Z))
    (service_name : string) (w w0 w1 : World)
    (Hboot : run_make_needed_directories w = (w0, Return tt))
    (Hregistry : service_names self !! city_name self = Some service_name)
    (Hprobe : city_has_data self (before_probe self w0) = (w1, Return false)) :
  load_raw_data self just_download months w = (w1, Return None)
  /\ fs w1 = fs w0
  /\ trace w1
     = trace w
       ++ [ Log INFO ("Searching local directories for data from "
                        +:+ proper_city_name self +:+ "'s.");
            Log INFO ("Checking whether Lyft has published any data from "
                        +:+ proper_city_name self);
            Request (system_data_url self service_name);
            Log ERROR ("Lyft hasn't published any data for "
                         +:+ proper_city_name self) ].
Proof.
  split.
  - rewrite (load_raw_data_eq _ _ _ _ _ Hboot).
    erewrite bind_step by exact Hprobe. reflexivity.
  - assert (Htrace : trace w0 = trace w).
    { revert Hboot. unfold run_make_needed_directories.
      destruct (make_needed_directories (fs w)) as [f r].
      now intros [= <- _]. }
    revert Hprobe. rewrite (city_has_data_eq self service_name _ Hregistry).
    destruct (http_get _ _) as [response|e]; [|discriminate].
    destruct (status_code response =? 200); [discriminate|].
    intros [= <-]. cbn. rewrite Htrace, <- !app_assoc. split; reflexivity.
Qed.

Lemma py_range_from_1 (n : Z) :
  py_range 1 (n + 1) = List.map Z.of_nat (List.seq 1 (Z.to_nat n)).
Proof.
  unfold py_range. replace (n + 1 - 1) with n by lia.
  rewrite <- seq_shift, List.map_map. apply List.map_ext. intros i. lia.
Qed.

(** C8. Without an explicit list the loop runs over the months 1 to the
    current month when the year of the instance is the current year, and
    over 1 to 12 otherwise; with an explicit list it runs over that list as
    given; and a batch that passes the probe is the loop over these months,
    in the order of the list, started on the empty table.  When every one
    of these months has to be downloaded, the table returned is made of the
    rows of the months that download, in the order of the list. *)
Theorem months_to_query_for_spec
    (self : DataDownloader) (just_download : bool) (months : option (list Z))
    (explicit : list Z) (w w0 w1 : World)
    (Hboot : run_make_needed_directories w = (w0, Return tt))
    (Hprobe : city_has_data self (before_probe self w0) = (w1, Return true)) :
  (year self = now_year ->
   months_to_query_for self None
   = List.map Z.of_nat (List.seq 1 (Z.to_nat now_month)))
  /\ (year self <> now_year ->
      months_to_query_for self None = [1; 2; 3; 4; 5; 6; 7; 8; 9; 10; 11; 12])
  /\ months_to_query_for self (Some explicit) = explicit
  /\ load_raw_data self just_download months w
     = (data' <- load_months self just_download
                   (months_to_query_for self months) [] Unbound ;;
        ret (Some data')) w1
  /\ (String.eqb (city_name self) "portland" && (year self >? 2020) = false ->
      all_downloaded self (months_to_query_for self months) w1 ->
      snd (load_raw_data self just_download months w)
      = Return (Some (downloaded_rows self (months_to_query_for self months) w1))).
Proof.
  split; [|split; [|split; [|split]]].
  - intros Hyear. unfold months_to_query_for.
    rewrite (proj2 (Z.eqb_eq _ _) Hyear). apply py_range_from_1.
  - intros Hyear. unfold months_to_query_for.
    rewrite (proj2 (Z.eqb_neq _ _) Hyear). reflexivity.
  - reflexivity.
  - rewrite (load_raw_data_eq _ _ _ _ _ Hboot).
    erewrite bind_step by exact Hprobe. reflexivity.
  - intros Hsup Hall.
    rewrite (load_raw_data_eq _ _ _ _ _ Hboot).
    erewrite bind_step by exact Hprobe. cbv beta iota.
    destruct (load_months_all_downloaded self just_download
                (months_to_query_for self months) [] Unbound w1 Hsup Hall)
      as [w2 H2].
    erewrite bind_step by exact H2. reflexivity.
Qed.

(** ** The Bay Area *)

(** C9, as the code has it. ["bay_area"] is a key of the registry, so the
    constructor accepts it as soon as [proper_city_name] knows the city; the
    template table has no such key, so [get_data_file_name] raises
    [KeyError] for every year and month, and so does the single-month
    download, outside of its [try] block; a batch that passes the probe and
    has at least one month to run over ends with that uncaught [KeyError],
    raised at its first month.  The batch has a month to run over when the
    explicit list is not empty, and always without an explicit list. *)
Theorem bay_area_has_no_file_name
    (yr : Z) (proper : string) (just_download : bool)
    (months : option (list Z)) (w w0 w1 : World)
    (Hproper : config_proper_city_name "bay_area" = Return proper)
    (Hboot : run_make_needed_directories w = (w0, Return tt))
    (Hclock : 1 <= now_month)
    (Hmonths : months <> Some []) :
  exists self,
    init "bay_area" yr = Return self
    /\ city_name self = "bay_area" /\ year self = yr
    /\ (forall month,
          get_data_file_name self month = Raise (KeyError "bay_area"))
    /\ (forall month keep w',
          download_one_file_of_raw_data self month keep w'
          = (w', Raise (KeyError "bay_area")))
    /\ (city_has_data self (before_probe self w0) = (w1, Return true) ->
        load_raw_data self just_download months w
        = (w1, Raise (KeyError "bay_area"))).
Proof.
  eexists. split; [unfold init; rewrite Hproper; reflexivity|].
  split; [reflexivity|]. split; [reflexivity|].
  assert (Hname : forall s month,
             city_name s = "bay_area" ->
             get_data_file_name s month = Raise (KeyError "bay_area")).
  { intros s month Hs. rewrite get_data_file_name_eq, Hs. reflexivity. }
  split; [intros; now apply Hname|]. split.
  - intros month keep w'. unfold download_one_file_of_raw_data.
    apply bind_fail. unfold get_url_for_city_data. cbn [city_name year].
    cbn [String.eqb Ascii.eqb Bool.eqb andb].
    apply bind_fail. unfold lift. now rewrite Hname.
  - intros Hprobe. rewrite (load_raw_data_eq _ _ _ _ _ Hboot).
    erewrite bind_step by exact Hprobe. cbv beta iota.
    apply bind_fail.
    destruct (months_to_query_for _ months) as [|month rest] eqn:E.
    { exfalso. revert E. unfold months_to_query_for.
      destruct months as [l|]; [congruence|].
      rewrite py_range_from_1.
      destruct (_ =? _); [|discriminate].
      destruct (Z.to_nat now_month) eqn:En; [lia | discriminate]. }
    rewrite load_months_cons. apply bind_fail.
    unfold load_one_month. apply bind_fail.
    unfold lift. now rewrite Hname.
Qed.

(** ** A cached month *)

(** C2, on the code. In load mode a cached month is read from
    [RAW_DATA_DIR/<file>/<file>.csv], without the directory of the city,
    which is not where the extraction has put the CSV.  With nothing at that
    path the first cached month of a batch ends the batch with
    [FileNotFoundError]; no download is requested. *)
Theorem cached_month_is_read_outside_the_cache
    (self : DataDownloader) (months : option (list Z)) (month : Z)
    (rest : list Z) (f : string) (w w0 w1 : World)
    (Hboot : run_make_needed_directories w = (w0, Return tt))
    (Hprobe : city_has_data self (before_probe self w0) = (w1, Return true))
    (Hmonths : months_to_query_for self months = month :: rest)
    (Hname : get_data_file_name self month = Return f)
    (Hcached : snd (data_file_exists self f w1) = Return true)
    (Helsewhere : fs w1 !! (RAW_DATA_DIR ++ [f; f +:+ ".csv"]) = None)
    (Hread : forall t,
        io_fault t (OpRead (RAW_DATA_DIR ++ [f; f +:+ ".csv"])) = None) :
  load_raw_data self false months w
  = (logged (Log SUCCESS (f +:+ " is already saved to disk")) w1,
     Raise (FileNotFoundError (RAW_DATA_DIR ++ [f; f +:+ ".csv"])))
  /\ RAW_DATA_DIR ++ [f; f +:+ ".csv"]
     <> RAW_DATA_DIR ++ [city_name self; f; f +:+ ".csv"].
Proof.
  split.
  - rewrite (load_raw_data_eq _ _ _ _ _ Hboot).
    erewrite bind_step by exact Hprobe. cbv beta iota.
    apply bind_fail. rewrite Hmonths, load_months_cons. apply bind_fail.
    unfold load_one_month.
    erewrite bind_step by (unfold lift; rewrite Hname; reflexivity).
    apply bind_fail.
    erewrite bind_step.
    2:{ destruct (data_file_exists self f w1) as [w2 r] eqn:E.
        cbn [snd] in Hcached. subst r.
        unfold data_file_exists in E. injection E as <- _. reflexivity. }
    cbv beta iota.
    erewrite bind_step by reflexivity.
    apply bind_fail. unfold pd_read_csv. apply bind_fail.
    unfold read_file. rewrite bind_unfold. unfold check_fault.
    cbn [logged trace fs]. rewrite Hread. cbn [fs].
    rewrite Helsewhere. reflexivity.
  - intros H. apply app_inv_head in H. discriminate.
Qed.

(** C3, on the code. In download-only mode a cached month assigns nothing
    to the local [data_for_the_month], which [pd.concat] reads right after:
    when the first month of a batch is cached, the batch ends with
    [UnboundLocalError]. *)
Theorem cached_first_month_raises_in_download_only_mode
    (self : DataDownloader) (months : option (list Z)) (month : Z)
    (rest : list Z) (f : string) (w w0 w1 : World)
    (Hboot : run_make_needed_directories w = (w0, Return tt))
    (Hprobe : city_has_data self (before_probe self w0) = (w1, Return true))
    (Hmonths : months_to_query_for self months = month :: rest)
    (Hname : get_data_file_name self month = Return f)
    (Hcached : snd (data_file_exists self f w1) = Return true) :
  load_raw_data self true months w
  = (logged (Log SUCCESS (f +:+ " is already saved to disk")) w1,
     Raise (UnboundLocalError "data_for_the_month")).
Proof.
  rewrite (load_raw_data_eq _ _ _ _ _ Hboot).
  erewrite bind_step by exact Hprobe. cbv beta iota.
  apply bind_fail. rewrite Hmonths, load_months_cons. apply bind_fail.
  unfold load_one_month.
  erewrite bind_step by (unfold lift; rewrite Hname; reflexivity).
  erewrite bind_step.
  2:{ erewrite bind_step.
      2:{ destruct (data_file_exists self f w1) as [w2 r] eqn:E.
          cbn [snd] in Hcached. subst r.
          unfold data_file_exists in E. injection E as <- _. reflexivity. }
      cbv beta iota. erewrite bind_step by reflexivity. reflexivity. }
  reflexivity.
Qed.

(** ** A failed download followed by a cached month *)

Lemma data_file_exists_miss (self : DataDownloader) (f : string) (w : World) :
  snd (data_file_exists self f w) = Return false ->
  path_exists (RAW_DATA_DIR ++ [city_name self; f]) w = false.
Proof.
  unfold data_file_exists. cbv zeta. cbn [snd].
  destruct (path_exists _ w); [discriminate | reflexivity].
Qed.

(** C1, on the code. The single-month download catches what its [try] block
    raises and returns [None], and the loop goes on to the next month; but
    the batch does not always reach its end afterwards.  In load mode, with
    a month that downloads, then a month whose download fails, then a month
    that is cached: the cached month is read from
    [RAW_DATA_DIR/<file>/<file>.csv], without the directory of the city (the
    defect of C2), and with nothing at that path the batch raises
    [FileNotFoundError].  No table is returned, so the rows of the month
    that was downloaded are lost, although the loop over the first two
    months alone returns them; and the months after the cached one are never
    attempted. *)
Theorem cached_month_after_a_failed_download_ends_the_batch
    (self : DataDownloader) (months : option (list Z))
    (m_ok m_failed m_cached : Z) (rest : list Z)
    (f_ok f_failed f_cached : string) (df : DataFrame)
    (w w0 w1 w2 w3 : World)
    (Hboot : run_make_needed_directories w = (w0, Return tt))
    (Hprobe : city_has_data self (before_probe self w0) = (w1, Return true))
    (Hmonths :
       months_to_query_for self months = m_ok :: m_failed :: m_cached :: rest)
    (Hname_ok : get_data_file_name self m_ok = Return f_ok)
    (Hname_failed : get_data_file_name self m_failed = Return f_failed)
    (Hname_cached : get_data_file_name self m_cached = Return f_cached)
    (Hmiss_ok : snd (data_file_exists self f_ok w1) = Return false)
    (Hok :
       download_one_file_of_raw_data self m_ok false w1
       = (w2, Return (Some df)))
    (Hmiss_failed : snd (data_file_exists self f_failed w2) = Return false)
    (Hfailed :
       download_one_file_of_raw_data self m_failed false w2
       = (w3, Return None))
    (Hcached : snd (data_file_exists self f_cached w3) = Return true)
    (Helsewhere :
       fs w3 !! (RAW_DATA_DIR ++ [f_cached; f_cached +:+ ".csv"]) = None)
    (Hread : forall t,
        io_fault t (OpRead (RAW_DATA_DIR ++ [f_cached; f_cached +:+ ".csv"]))
        = None) :
  load_raw_data self false months w
  = (logged (Log SUCCESS (f_cached +:+ " is already saved to disk")) w3,
     Raise (FileNotFoundError
              (RAW_DATA_DIR ++ [f_cached; f_cached +:+ ".csv"])))
  /\ load_months self false [m_ok; m_failed] [] Unbound w1 = (w3, Return df).
Proof.
  apply data_file_exists_miss in Hmiss_ok, Hmiss_failed.
  assert (Hstep_ok :
            load_one_month self false m_ok [] Unbound w1
            = (w2, Return (df, Bound (Some df)))).
  { rewrite (load_one_month_miss self false m_ok [] Unbound f_ok w1
               Hname_ok Hmiss_ok), Hok.
    reflexivity. }
  assert (Hstep_failed :
            load_one_month self false m_failed df (Bound (Some df)) w2
            = (w3, Return (df, Bound None))).
  { rewrite (load_one_month_miss self false m_failed df (Bound (Some df))
               f_failed w2 Hname_failed Hmiss_failed), Hfailed.
    cbn [rows_of]. rewrite app_nil_r. reflexivity. }
  split.
  - rewrite (load_raw_data_eq _ _ _ _ _ Hboot).
    erewrite bind_step by exact Hprobe. cbv beta iota.
    apply bind_fail. rewrite Hmonths.
    rewrite load_months_cons. erewrite bind_step by exact Hstep_ok.
    cbn [fst snd].
    rewrite load_months_cons. erewrite bind_step by exact Hstep_failed.
    cbn [fst snd].
    rewrite load_months_cons. apply bind_fail.
    unfold load_one_month.
    erewrite bind_step by (unfold lift; rewrite Hname_cached; reflexivity).
    apply bind_fail.
    erewrite bind_step.
    2:{ destruct (data_file_exists self f_cached w3) as [w4 r] eqn:E.
        cbn [snd] in Hcached. subst r.
        unfold data_file_exists in E. injection E as <- _. reflexivity. }
    cbv beta iota.
    erewrite bind_step by reflexivity.
    apply bind_fail. unfold pd_read_csv. apply bind_fail.
    unfold read_file. rewrite bind_unfold. unfold check_fault.
    cbn [logged trace fs]. rewrite Hread. cbn [fs].
    rewrite Helsewhere. reflexivity.
  - rewrite load_months_cons. erewrite bind_step by exact Hstep_ok.
    cbn [fst snd].
    rewrite load_months_cons. erewrite bind_step by exact Hstep_failed.
    reflexivity.
Qed.

End DownloaderProperties.

(** ** Examples in the concrete environment *)

Example demo_init_chicago :
  init Demo.proper_city_name Demo.unicode_lower "Chicago" 2024
  = Return (mkDataDownloader 2024 "chicago" "Chicago" Demo.registry).
Proof. reflexivity. Qed.

(** An identifier with a character outside ASCII is lowered by the Unicode
    mapping: with the Kelvin sign for its last letter, New York is accepted. *)
Example demo_init_new_york_with_a_kelvin_sign :
  is_ascii ("NEW_YOR" +:+ Demo.kelvin_sign) = false
  /\ init Demo.proper_city_name Demo.unicode_lower
       ("NEW_YOR" +:+ Demo.kelvin_sign) 2024
     = Return (mkDataDownloader 2024 "new_york"
                 ("NEW_YOR" +:+ Demo.kelvin_sign) Demo.registry).
Proof. split; reflexivity. Qed.

(** On the strings of ASCII characters the lowering is computed. *)
Example demo_lower_ascii :
  lower Demo.unicode_lower "Washington_DC" = "washington_dc"
  /\ lower Demo.unicode_lower "new_york-2" = "new_york-2".
Proof. split; reflexivity. Qed.

Example demo_january_is_what_a_download_leaves :
  map_to_list
    (fs (fst (download_one_file_of_raw_data Demo.no_fault Demo.unzip Byte.byte
                Demo.parse_csv Demo.http Demo.RAW_DATA_DIR Demo.chicago 1 false
                Demo.empty_cache)))
  = map_to_list (fs Demo.january_cached).
Proof. vm_compute. reflexivity. Qed.

(** The whole batch over February and January of 2024 on an empty cache:
    February fails at the request, January's rows are in the table. *)
Example demo_batch_with_a_failed_month :
  snd (load_raw_data Demo.no_fault Demo.unzip Byte.byte Demo.parse_csv Demo.http
         Demo.RAW_DATA_DIR Demo.make_needed_directories 2025 6 Demo.chicago
         false (Some [2; 1]) Demo.empty_cache)
  = Return (Some [Byte.x0a; Byte.x0b]).
Proof. vm_compute. reflexivity. Qed.

(** February 2024 fails at the request: its download returns [None], and
    the loop over February and January returns January's rows. *)
Lemma failed_month_does_not_abort_batch_example :
  snd (download_one_file_of_raw_data Demo.no_fault Demo.unzip Byte.byte
         Demo.parse_csv Demo.http Demo.RAW_DATA_DIR Demo.chicago 2 false
         Demo.empty_cache)
  = Return None
  /\ snd (load_months Demo.no_fault Demo.unzip Byte.byte Demo.parse_csv
            Demo.http Demo.RAW_DATA_DIR Demo.chicago false [2; 1] [] Unbound
            Demo.empty_cache)
     = Return [Byte.x0a; Byte.x0b].
Proof.
  destruct (failed_month_does_not_abort_batch Demo.no_fault Demo.unzip
              Byte.byte Demo.parse_csv Demo.http Demo.RAW_DATA_DIR Demo.chicago
              false 2 [1] [] Unbound "202402-divvy-tripdata" Demo.empty_cache
              eq_refl eq_refl eq_refl)
    as (u & Hu & _ & Hstep & _ & Hbatch).
  change (get_url_for_city_data Demo.chicago 2 Demo.empty_cache)
    with (Demo.empty_cache, Return (Some Demo.feb_url)) in Hu.
  injection Hu as <-.
  split.
  - destruct (download_attempt _ _ _ _ _ _ _ _ _ _ _) as [w1 [r|e]] eqn:E.
    + vm_compute in E. discriminate E.
    + rewrite (proj1 Hstep). reflexivity.
  - destruct (Hbatch [2; 1] [] Unbound Demo.empty_cache) as [w2 H2].
    + cbn [all_downloaded].
      split; [eexists; split; reflexivity|].
      split; [eexists; split; reflexivity | exact I].
    + rewrite H2. reflexivity.
Defined.

(** January 2024 is cached with its CSV, and the load reads elsewhere. *)
Lemma cached_month_is_read_outside_the_cache_witness :
  snd (load_raw_data Demo.no_fault Demo.unzip Byte.byte Demo.parse_csv Demo.http
         Demo.RAW_DATA_DIR Demo.make_needed_directories 2025 6 Demo.chicago
         false (Some [1]) Demo.january_cached)
  = Raise (FileNotFoundError
             ["data"; "raw"; "202401-divvy-tripdata";
              "202401-divvy-tripdata.csv"])
  /\ fs Demo.january_cached
       !! ["data"; "raw"; "chicago"; "202401-divvy-tripdata";
           "202401-divvy-tripdata.csv"]
     = Some (File [Byte.x0a; Byte.x0b]).
Proof.
  split; [|reflexivity].
  refine (f_equal snd
            (proj1
               (cached_month_is_read_outside_the_cache Demo.no_fault
                  Demo.unzip Byte.byte Demo.parse_csv Demo.http
                  Demo.RAW_DATA_DIR Demo.make_needed_directories 2025 6
                  Demo.chicago (Some [1]) 1 [] "202401-divvy-tripdata"
                  Demo.january_cached Demo.january_cached _ _ _ _ _ _ _ _)));
    reflexivity.
Defined.

(** January 2024 is cached and the batch only downloads. *)
Lemma cached_first_month_raises_in_download_only_mode_witness :
  snd (load_raw_data Demo.no_fault Demo.unzip Byte.byte Demo.parse_csv Demo.http
         Demo.RAW_DATA_DIR Demo.make_needed_directories 2025 6 Demo.chicago
         true (Some [1]) Demo.january_cached)
  = Raise (UnboundLocalError "data_for_the_month").
Proof.
  refine (f_equal snd
            (cached_first_month_raises_in_download_only_mode Demo.no_fault
               Demo.unzip Byte.byte Demo.parse_csv Demo.http
               Demo.RAW_DATA_DIR Demo.make_needed_directories 2025 6
               Demo.chicago (Some [1]) 1 [] "202401-divvy-tripdata"
               Demo.january_cached Demo.january_cached _ _ _ _ _ _));
    reflexivity.
Defined.

(** Chicago 2024 in load mode over January, February and March, with March
    in the cache: January downloads, February fails at the request, and the
    batch raises at March; over January and February alone it returns
    January's rows. *)
Lemma cached_month_after_a_failed_download_ends_the_batch_witness :
  snd (load_raw_data Demo.no_fault Demo.unzip Byte.byte Demo.parse_csv Demo.http
         Demo.RAW_DATA_DIR Demo.make_needed_directories 2025 6 Demo.chicago
         false (Some [1; 2; 3]) Demo.march_cached)
  = Raise (FileNotFoundError
             ["data"; "raw"; "202403-divvy-tripdata";
              "202403-divvy-tripdata.csv"])
  /\ snd (load_raw_data Demo.no_fault Demo.unzip Byte.byte Demo.parse_csv
            Demo.http Demo.RAW_DATA_DIR Demo.make_needed_directories 2025 6
            Demo.chicago false (Some [1; 2]) Demo.march_cached)
     = Return (Some [Byte.x0a; Byte.x0b]).
Proof.
  split; [|vm_compute; reflexivity].
  refine (f_equal snd
            (proj1
               (cached_month_after_a_failed_download_ends_the_batch
                  Demo.no_fault Demo.unzip Byte.byte Demo.parse_csv Demo.http
                  Demo.RAW_DATA_DIR Demo.make_needed_directories 2025 6
                  Demo.chicago (Some [1; 2; 3]) 1 2 3 []
                  "202401-divvy-tripdata" "202402-divvy-tripdata"
                  "202403-divvy-tripdata" [Byte.x0a; Byte.x0b]
                  Demo.march_cached Demo.march_cached _ _ _
                  _ _ _ _ _ _ _ _ _ _ _ _ _)));
    reflexivity.
Defined.

Lemma get_url_for_city_data_portland_witness :
  get_url_for_city_data (mkDataDownloader 2021 "portland" "Portland" ∅) 1
    Demo.empty_cache
  = (logged (Log ERROR "Lyft doesn't provide data on Portland after 2020.")
       Demo.empty_cache, Return None)
  /\ get_url_for_city_data (mkDataDownloader 2020 "portland" "Portland" ∅) 5
       Demo.empty_cache
     = (Demo.empty_cache,
        Return
          (Some "https://s3.amazonaws.com/biketown-tripdata-public/202005.csv.zip")).
Proof.
  apply (get_url_for_city_data_portland 2021 1 "Portland" ∅ Demo.empty_cache).
  lia.
Defined.

Lemma get_data_file_name_matches_template_witness :
  get_data_file_name Demo.chicago 7 = Return (YYYYMM 2024 7 +:+ "-divvy-tripdata")
  /\ get_data_file_name (mkDataDownloader 2024 "chicago" "Chicago" ∅) 7
     = get_data_file_name Demo.chicago 7
  /\ get_data_file_name (mkDataDownloader 2024 "chicago" "Chicago" ∅) 3
     = Return "202403-divvy-tripdata".
Proof.
  apply (get_data_file_name_matches_template
           Demo.chicago (mkDataDownloader 2024 "chicago" "Chicago" ∅) 7
           "-divvy-tripdata" "Chicago" ∅);
    [reflexivity | reflexivity | reflexivity | simpl; lia | lia].
Defined.

(** The HTTP client raises, and so does the probe. *)
Lemma probe_raises_on_transport_failure :
  snd (city_has_data Demo.http_down Demo.chicago Demo.empty_cache)
  = Raise (RequestException "connection refused")
  /\ snd (city_has_data Demo.http_down Demo.chicago Demo.empty_cache)
     <> Return false.
Proof. split; [reflexivity | discriminate]. Qed.

Lemma city_has_data_follows_status_witness :
  snd (city_has_data Demo.http_404 Demo.chicago Demo.empty_cache) = Return false
  /\ snd (city_has_data Demo.http Demo.chicago Demo.empty_cache) = Return true
  /\ snd (city_has_data Demo.http_down Demo.chicago Demo.empty_cache)
     = Raise (RequestException "connection refused").
Proof.
  split; [|split].
  - exact (proj1 (city_has_data_follows_status Demo.http_404 Demo.chicago
                    "divvybikes" Demo.empty_cache eq_refl)).
  - exact (proj1 (city_has_data_follows_status Demo.http Demo.chicago
                    "divvybikes" Demo.empty_cache eq_refl)).
  - exact (proj1 (city_has_data_follows_status Demo.http_down Demo.chicago
                    "divvybikes" Demo.empty_cache eq_refl)).
Defined.

(** The portal answers 404: no result, and the probe is the only request. *)
Lemma load_raw_data_without_data_witness :
  snd (load_raw_data Demo.no_fault Demo.unzip Byte.byte Demo.parse_csv
         Demo.http_404 Demo.RAW_DATA_DIR Demo.make_needed_directories 2025 6
         Demo.chicago false (Some [1; 2]) Demo.empty_cache)
  = Return None
  /\ trace (fst (load_raw_data Demo.no_fault Demo.unzip Byte.byte
                   Demo.parse_csv Demo.http_404 Demo.RAW_DATA_DIR
                   Demo.make_needed_directories 2025 6 Demo.chicago false
                   (Some [1; 2]) Demo.empty_cache))
     = [ Log INFO "Searching local directories for data from chicago's.";
         Log INFO "Checking whether Lyft has published any data from chicago";
         Request "https://divvybikes.com/system-data";
         Log ERROR "Lyft hasn't published any data for chicago" ].
Proof.
  pose proof (load_raw_data_without_data Demo.no_fault Demo.unzip Byte.byte
                Demo.parse_csv Demo.http_404 Demo.RAW_DATA_DIR
                Demo.make_needed_directories 2025 6 Demo.chicago false
                (Some [1; 2]) "divvybikes" Demo.empty_cache Demo.empty_cache _
                eq_refl eq_refl eq_refl) as (H1 & _ & H3).
  rewrite H1. split; [reflexivity | exact H3].
Defined.

(** June 2024 on the clock: a batch for 2024 runs over 1 to 6, a batch for
    another year over the twelve months. *)
Lemma months_to_query_for_spec_witness :
  months_to_query_for 2024 6 Demo.chicago None = [1; 2; 3; 4; 5; 6]
  /\ months_to_query_for 2025 6 Demo.chicago None
     = [1; 2; 3; 4; 5; 6; 7; 8; 9; 10; 11; 12]
  /\ months_to_query_for 2024 6 Demo.chicago (Some [3; 1]) = [3; 1].
Proof.
  pose proof (months_to_query_for_spec Demo.no_fault Demo.unzip Byte.byte
                Demo.parse_csv Demo.http Demo.RAW_DATA_DIR
                Demo.make_needed_directories 2024 6 Demo.chicago false None
                [3; 1] Demo.empty_cache Demo.empty_cache _ eq_refl eq_refl)
    as (H1 & _ & H3 & _).
  pose proof (months_to_query_for_spec Demo.no_fault Demo.unzip Byte.byte
                Demo.parse_csv Demo.http Demo.RAW_DATA_DIR
                Demo.make_needed_directories 2025 6 Demo.chicago false None
                [3; 1] Demo.empty_cache Demo.empty_cache _ eq_refl eq_refl)
    as (_ & H2 & _).
  split; [exact (H1 eq_refl) | split; [apply H2; discriminate | exact H3]].
Defined.

(** A batch for the Bay Area over an empty list of months returns the empty
    table. *)
Lemma bay_area_empty_batch_returns :
  snd (load_raw_data Demo.no_fault Demo.unzip Byte.byte Demo.parse_csv Demo.http
         Demo.RAW_DATA_DIR Demo.make_needed_directories 2025 6 Demo.bay_area
         false (Some []) Demo.empty_cache)
  = Return (Some [])
  /\ init Demo.proper_city_name Demo.unicode_lower "bay_area" 2024
     = Return Demo.bay_area.
Proof. split; reflexivity. Qed.

Lemma bay_area_has_no_file_name_witness :
  snd (load_raw_data Demo.no_fault Demo.unzip Byte.byte Demo.parse_csv Demo.http
         Demo.RAW_DATA_DIR Demo.make_needed_directories 2025 6 Demo.bay_area
         false None Demo.empty_cache)
  = Raise (KeyError "bay_area")
  /\ get_data_file_name Demo.bay_area 3 = Raise (KeyError "bay_area").
Proof.
  destruct (bay_area_has_no_file_name Demo.no_fault Demo.unzip Byte.byte
              Demo.parse_csv Demo.http Demo.RAW_DATA_DIR
              Demo.make_needed_directories
              Demo.proper_city_name Demo.unicode_lower 2025 6 2024
              "bay_area" false None Demo.empty_cache Demo.empty_cache
              (fst (city_has_data Demo.http Demo.bay_area
                      (before_probe Demo.bay_area Demo.empty_cache)))
              eq_refl eq_refl ltac:(lia) ltac:(discriminate))
    as (self & Hinit & _ & _ & Hname & _ & Hbatch).
  change (Return Demo.bay_area = Return self) in Hinit.
  injection Hinit as <-.
  split; [|apply Hname].
  rewrite Hbatch; reflexivity.
Defined.

(** February 2024 fails at the request: the download is caught and returns
    [None], and the month is as absent from the cache as before. *)
Lemma request_failure_creates_no_cache_entry :
  let dl :=
    download_one_file_of_raw_data Demo.no_fault Demo.unzip Byte.byte
      Demo.parse_csv Demo.http Demo.RAW_DATA_DIR Demo.chicago 2 false
      Demo.empty_cache in
  Demo.http
    (trace Demo.empty_cache
       ++ [Log INFO ("Downloading " +:+ "202402-divvy-tripdata" +:+ ".zip")])
    Demo.feb_url
  = Raise (RequestException "connection reset")
  /\ snd dl = Return None
  /\ In (LogException (RequestException "connection reset")) (trace (fst dl))
  /\ snd (data_file_exists Demo.RAW_DATA_DIR Demo.chicago
            "202402-divvy-tripdata" (fst dl)) = Return false
  /\ fs (fst dl)
       !! ["data"; "raw"; "chicago"; "202402-divvy-tripdata"]
     = None.
Proof.
  intros dl. split; [reflexivity|]. split; [reflexivity|].
  split; [vm_compute; auto|]. split; reflexivity.
Qed.

(** March 2024 answers 200 with a body that is no archive. *)
Lemma failed_download_leaves_cache_entry_witness :
  let dl :=
    download_one_file_of_raw_data Demo.no_fault Demo.unzip Byte.byte
      Demo.parse_csv Demo.http Demo.RAW_DATA_DIR Demo.chicago 3 false
      Demo.empty_cache in
  snd dl = Return None
  /\ snd (data_file_exists Demo.RAW_DATA_DIR Demo.chicago
            "202403-divvy-tripdata" (fst dl)) = Return true
  /\ snd (data_file_exists Demo.RAW_DATA_DIR Demo.chicago
            "202403-divvy-tripdata" Demo.empty_cache) = Return false
  /\ fs (fst dl)
       !! ["data"; "raw"; "chicago"; "202403-divvy-tripdata";
           "202403-divvy-tripdata.csv"]
     = None.
Proof.
  intros dl.
  destruct (failed_download_leaves_cache_entry Demo.no_fault Demo.unzip
              Byte.byte Demo.parse_csv Demo.http Demo.RAW_DATA_DIR
              Demo.chicago 3 "202403-divvy-tripdata"
              "https://divvy-tripdata.s3.amazonaws.com/202403-divvy-tripdata.zip"
              Demo.empty_cache
              eq_refl eq_refl eq_refl eq_refl (fun _ => eq_refl))
    as (Hhit & _ & _ & Hcsv).
  destruct (Hcsv (or_introl eq_refl) eq_refl) as [Hnone Habsent].
  split; [exact Hnone|]. split; [exact Hhit|].
  split; [reflexivity | exact Habsent].
Defined.

(** * Further properties of the module *)

(** ** Requests *)

Lemma requested_app (t t' : list event) :
  requested (t ++ t') = requested t ++ requested t'.
Proof. apply flat_map_app. Qed.

Lemma quiet_ret {A} (a : A) : quiet (ret a).
Proof. intros w. reflexivity. Qed.

Lemma quiet_raise {A} (e : exn) : quiet (@raise A e).
Proof. intros w. reflexivity. Qed.

Lemma quiet_lift {A} (o : outcome A) : quiet (lift o).
Proof. intros w. reflexivity. Qed.

Lemma quiet_logger (lvl : level) (msg : string) : quiet (logger lvl msg).
Proof. intros w. cbn. rewrite requested_app. cbn. apply app_nil_r. Qed.

Lemma quiet_log_exception (e : exn) : quiet (emit (LogException e)).
Proof. intros w. cbn. rewrite requested_app. cbn. apply app_nil_r. Qed.

Lemma quiet_bind {A B} (c : M A) (k : A -> M B) :
  quiet c -> (forall a, quiet (k a)) -> quiet (bind c k).
Proof.
  intros Hc Hk w. unfold bind.
  specialize (Hc w). destruct (c w) as [w1 [a|e]]; cbn [fst] in *.
  - now rewrite Hk.
  - exact Hc.
Qed.

Lemma quiet_cond {A} (b : World -> bool) (c1 c2 : M A) :
  quiet c1 -> quiet c2 -> quiet (fun w => if b w then c1 w else c2 w).
Proof. intros H1 H2 w. destruct (b w); auto. Qed.

(** A computation that leaves the trace as it is issues no request. *)
Lemma quiet_same_trace {A} (c : M A) :
  (forall w, trace (fst (c w)) = trace w) -> quiet c.
Proof. intros H w. now rewrite H. Qed.

Create HintDb quiet.
#[local] Hint Resolve quiet_ret quiet_raise quiet_lift quiet_logger
  quiet_log_exception : quiet.

Ltac quiet_tac :=
  repeat first
    [ progress auto with quiet
    | match goal with
      | |- quiet (match ?x with _ => _ end) => destruct x
      | |- quiet (if ?x then _ else _) => destruct x
      | |- quiet (bind _ _) => apply quiet_bind; [|intros]
      | |- quiet (fun w => if _ then _ else _) => apply quiet_cond
      end ].

Section PrimitivesQuiet.

Variable io_fault : list event -> io_op -> option exn.
Variable unzip : bytes -> option (gmap string bytes).
Variable row : Type.
Variable parse_csv : bytes -> outcome (DataFrame row).

Lemma quiet_check_fault (op : io_op) : quiet (check_fault io_fault op).
Proof.
  apply quiet_same_trace. intros w. unfold check_fault.
  now destruct (io_fault (trace w) op).
Qed.

Lemma quiet_os_mkdir (q : path) : quiet (os_mkdir io_fault q).
Proof.
  apply quiet_bind; [apply quiet_check_fault|intros _].
  apply quiet_same_trace. intros w.
  destruct (fs w !! q); [reflexivity|].
  now destruct (fs w !! parent q) as [[|b]|].
Qed.

Lemma quiet_makedirs_from (comps : list string) (base : path) :
  quiet (makedirs_from io_fault base comps).
Proof.
  revert base. induction comps as [|c comps IH]; intros base; simpl.
  - apply quiet_ret.
  - intros w. destruct (fs w !! (base ++ [c])) as [[|b]|] eqn:E.
    + apply IH.
    + reflexivity.
    + clear E. revert w. apply quiet_bind; [apply quiet_os_mkdir|].
      intros _. apply IH.
Qed.

Lemma quiet_write_file (q : path) (b : bytes) : quiet (write_file io_fault q b).
Proof.
  apply quiet_bind; [apply quiet_check_fault|intros _].
  apply quiet_same_trace. intros w.
  destruct (fs w !! q) as [[|b']|];
    destruct (fs w !! parent q) as [[|b'']|]; reflexivity.
Qed.

Lemma quiet_read_file (q : path) : quiet (read_file io_fault q).
Proof.
  apply quiet_bind; [apply quiet_check_fault|intros _].
  apply quiet_same_trace. intros w. now destruct (fs w !! q) as [[|b]|].
Qed.

Lemma quiet_os_remove (q : path) : quiet (os_remove io_fault q).
Proof.
  apply quiet_bind; [apply quiet_check_fault|intros _].
  apply quiet_same_trace. intros w. now destruct (fs w !! q) as [[|b]|].
Qed.

#[local] Hint Resolve quiet_check_fault quiet_os_mkdir quiet_makedirs_from
  quiet_write_file quiet_read_file quiet_os_remove : quiet.

Lemma quiet_ZipFile_extract (z : path) (member : string) (target : path) :
  quiet (ZipFile_extract io_fault unzip z member target).
Proof. unfold ZipFile_extract. quiet_tac. Qed.

Lemma quiet_pd_read_csv (q : path) :
  quiet (pd_read_csv io_fault row parse_csv q).
Proof. unfold pd_read_csv. quiet_tac. Qed.

Lemma quiet_pd_concat (data : DataFrame row) (x : local (option (DataFrame row))) :
  quiet (pd_concat row data x).
Proof. unfold pd_concat. quiet_tac. Qed.

(** *** The primitives when nothing stands in their way *)

Lemma write_file_ok (p : path) (b : bytes) (w : World) :
  io_fault (trace w) (OpWrite p) = None ->
  fs w !! p <> Some Dir ->
  fs w !! parent p = Some Dir ->
  write_file io_fault p b w
  = (mkWorld (<[p := File b]> (fs w)) (trace w), Return tt).
Proof.
  intros Hfault Hp Hparent. unfold write_file. rewrite bind_unfold.
  unfold check_fault. rewrite Hfault, Hparent.
  destruct (fs w !! p) as [[|b']|]; [congruence | reflexivity | reflexivity].
Qed.

Lemma read_file_ok (p : path) (b : bytes) (w : World) :
  io_fault (trace w) (OpRead p) = None ->
  fs w !! p = Some (File b) ->
  read_file io_fault p w = (w, Return b).
Proof.
  intros Hfault Hp. unfold read_file. rewrite bind_unfold.
  unfold check_fault. rewrite Hfault, Hp. reflexivity.
Qed.

Lemma os_remove_ok (p : path) (b : bytes) (w : World) :
  io_fault (trace w) (OpRemove p) = None ->
  fs w !! p = Some (File b) ->
  os_remove io_fault p w = (mkWorld (delete p (fs w)) (trace w), Return tt).
Proof.
  intros Hfault Hp. unfold os_remove. rewrite bind_unfold.
  unfold check_fault. rewrite Hfault, Hp. reflexivity.
Qed.

Lemma ZipFile_extract_ok (z : path) (member : string) (target : path)
    (zb data : bytes) (archive : gmap string bytes) (w : World) :
  (forall op, io_fault (trace w) op = None) ->
  fs w !! z = Some (File zb) ->
  unzip zb = Some archive ->
  archive !! member = Some data ->
  fs w !! target = Some Dir ->
  fs w !! (target ++ [member]) <> Some Dir ->
  ZipFile_extract io_fault unzip z member target w
  = (mkWorld (<[target ++ [member] := File data]> (fs w)) (trace w), Return tt).
Proof.
  intros Hfault Hz Hunzip Hmember Htarget Hfree. unfold ZipFile_extract.
  erewrite bind_step by (apply (read_file_ok z zb); auto).
  rewrite Hunzip, Hmember.
  erewrite bind_step.
  2:{ unfold path_exists. rewrite Htarget.
      rewrite bool_decide_eq_true_2 by eauto. reflexivity. }
  apply write_file_ok; auto.
  unfold parent. now rewrite removelast_last.
Qed.

Lemma pd_read_csv_ok (p : path) (b : bytes) (df : DataFrame row) (w : World) :
  io_fault (trace w) (OpRead p) = None ->
  fs w !! p = Some (File b) ->
  parse_csv b = Return df ->
  pd_read_csv io_fault row parse_csv p w = (w, Return df).
Proof.
  intros Hfault Hp Hparse. unfold pd_read_csv.
  erewrite bind_step by (apply read_file_ok; eauto).
  unfold lift. now rewrite Hparse.
Qed.

End PrimitivesQuiet.

#[local] Hint Resolve quiet_check_fault quiet_os_mkdir quiet_makedirs_from
  quiet_write_file quiet_read_file quiet_os_remove quiet_ZipFile_extract
  quiet_pd_read_csv quiet_pd_concat : quiet.

(** ** The archive name *)

Lemma append_empty_r (s : string) : s +:+ "" = s.
Proof.
  induction s as [|c s IH]; [reflexivity|].
  change (String c (s +:+ "") = String c s). now f_equal.
Qed.

Lemma after_last_slash_spec (s : string) :
  has_slash (after_last_slash s) = false
  /\ exists p,
       s = p +:+ after_last_slash s
       /\ (p = "" \/ exists q, p = q +:+ "/").
Proof.
  induction s as [|c s IH].
  - split; [reflexivity|]. exists "". split; [reflexivity | now left].
  - cbn [after_last_slash].
    destruct (has_slash (String c s)) eqn:Hs.
    + destruct IH as [Hno (p & Hp & Hend)]. split; [exact Hno|].
      exists (String c p). split; [change (String c s = String c (p +:+ after_last_slash s)); now f_equal|].
      right. destruct Hend as [-> | [q ->]].
      * change (s = after_last_slash s) in Hp. rewrite <- Hp in Hno.
        cbn in Hs. rewrite Hno in Hs.
        rewrite orb_false_r in Hs. apply Ascii.eqb_eq in Hs. subst c.
        now exists "".
      * now exists (String c q).
    + split; [exact Hs|]. exists "". split; [reflexivity | now left].
Qed.

(** X1. What [get_zipfile_name] returns is the part of the URL after its last
    slash: it is not empty, holds no slash, and what precedes it in the URL
    is empty or ends with a slash.  The function raises ["Invalid URL"]
    exactly when the URL is empty or ends with a slash, and [TypeError]
    when it is given [None]. *)
Theorem get_zipfile_name_spec (u : string) :
  match get_zipfile_name (Some u) with
  | Return name =>
      name <> ""
      /\ has_slash name = false
      /\ exists p, u = p +:+ name /\ (p = "" \/ exists q, p = q +:+ "/")
  | Raise e =>
      e = InvalidURL /\ (u = "" \/ exists q, u = q +:+ "/")
  end
  /\ get_zipfile_name None = Raise TypeError.
Proof.
  split; [|reflexivity].
  unfold get_zipfile_name.
  destruct (after_last_slash_spec u) as [Hno (p & Hp & Hend)].
  destruct (after_last_slash u) as [|c name] eqn:E.
  - split; [reflexivity|].
    destruct Hend as [-> | [q ->]]; [left; exact Hp | right].
    exists q. rewrite Hp. apply append_empty_r.
  - split; [discriminate|]. split; [exact Hno|]. now exists p.
Qed.

(** X2. For a city with a template (Portland only up to 2020) the file name is
    read back from the URL: the URL is derived without any log line, the
    archive name taken from it is the file name followed by [.zip], and
    dropping the last four characters gives the file name again, so the
    directory the download works in is the one the cache check looks at. *)
Theorem file_name_is_read_back_from_url
    (self : DataDownloader) (month : Z) (f : string) (w : World)
    (Hname : get_data_file_name self month = Return f)
    (Hsupported :
       String.eqb (city_name self) "portland" && (year self >? 2020) = false) :
  exists u zipfile_name,
    get_url_for_city_data self month w = (w, Return (Some u))
    /\ get_zipfile_name (Some u) = Return zipfile_name
    /\ zipfile_name = f +:+ ".zip"
    /\ drop_last 4 zipfile_name = f.
Proof.
  destruct (url_of_month self month f w Hname Hsupported) as (u & Hu & Hz).
  exists u, (f +:+ ".zip"). repeat split; auto using drop_last_zip.
Qed.

(** ** One cache entry per month *)

Lemma append_inv_head (a b c : string) : a +:+ b = a +:+ c -> b = c.
Proof. induction a as [|x a IH]; cbn; [auto | intros [= H]; auto]. Qed.

Lemma MM_inj (m1 m2 : Z) (s1 s2 : string) :
  0 <= m1 <= 99 -> 0 <= m2 <= 99 ->
  MM m1 +:+ s1 = MM m2 +:+ s2 -> m1 = m2.
Proof.
  intros H1 H2 [= Ha Hb _].
  assert (Hall : forallb
                   (fun a => forallb
                      (fun b => implb (Ascii.eqb (digit (a / 10)) (digit (b / 10))
                                       && Ascii.eqb (digit (a mod 10)) (digit (b mod 10)))
                                  (a =? b))
                      (py_range 0 100))
                   (py_range 0 100) = true) by (vm_compute; reflexivity).
  rewrite forallb_forall in Hall.
  specialize (Hall m1 (In_py_range 0 100 m1 ltac:(lia))).
  rewrite forallb_forall in Hall.
  specialize (Hall m2 (In_py_range 0 100 m2 ltac:(lia))).
  rewrite Ha, Hb, !Ascii.eqb_refl in Hall. cbn in Hall.
  now apply Z.eqb_eq.
Qed.

(** X3. Two months (written with at most two digits, as the months of the
    calendar are) that get the same file name from one instance are the same
    month: no two months of a year share a cache entry. *)
Theorem get_data_file_name_separates_months
    (self : DataDownloader) (m1 m2 : Z) (f : string)
    (H1 : 0 <= m1 <= 99) (H2 : 0 <= m2 <= 99)
    (Hf1 : get_data_file_name self m1 = Return f)
    (Hf2 : get_data_file_name self m2 = Return f) :
  m1 = m2.
Proof.
  rewrite get_data_file_name_eq in Hf1, Hf2.
  destruct (documented_template !! city_name self) as [sfx|]; [|discriminate].
  rewrite <- Hf2 in Hf1. injection Hf1 as Hf1.
  rewrite !format_02d_MM in Hf1 by lia.
  assert (Hassoc : forall a b c : string, (a +:+ b) +:+ c = a +:+ (b +:+ c)).
  { intros a b c. induction a as [|x a IH]; [reflexivity|].
    change (String x ((a +:+ b) +:+ c) = String x (a +:+ (b +:+ c))).
    now rewrite IH. }
  rewrite !Hassoc in Hf1. apply append_inv_head in Hf1.
  eapply MM_inj; eauto.
Qed.

(** ** The class, further *)

Section MoreDownloaderProperties.

Variable io_fault : list event -> io_op -> option exn.
Variable unzip : bytes -> option (gmap string bytes).
Variable row : Type.
Variable parse_csv : bytes -> outcome (DataFrame row).
Variable http_get : list event -> string -> outcome Response.
Variable RAW_DATA_DIR : path.
Variable make_needed_directories :
  gmap path node -> gmap path node * outcome unit.
Variable config_proper_city_name : string -> outcome string.
Variable unicode_lower : string -> string.
Variable now_year now_month : Z.

Local Abbreviation DataFrame := (DataFrame row).
Local Abbreviation city_has_data := (city_has_data http_get).
Local Abbreviation data_file_exists := (data_file_exists RAW_DATA_DIR).
Local Abbreviation download_attempt :=
  (download_attempt io_fault unzip row parse_csv http_get RAW_DATA_DIR).
Local Abbreviation download_one_file_of_raw_data :=
  (download_one_file_of_raw_data io_fault unzip row parse_csv http_get RAW_DATA_DIR).
Local Abbreviation load_one_month :=
  (load_one_month io_fault unzip row parse_csv http_get RAW_DATA_DIR).
Local Abbreviation load_months :=
  (load_months io_fault unzip row parse_csv http_get RAW_DATA_DIR).
Local Abbreviation months_to_query_for :=
  (months_to_query_for now_year now_month).
Local Abbreviation load_raw_data :=
  (load_raw_data io_fault unzip row parse_csv http_get RAW_DATA_DIR
     make_needed_directories now_year now_month).
Local Abbreviation init := (init config_proper_city_name unicode_lower).
Local Abbreviation lower := (lower unicode_lower).
Local Abbreviation all_downloaded :=
  (all_downloaded io_fault unzip row parse_csv http_get RAW_DATA_DIR).
Local Abbreviation run_make_needed_directories :=
  (run_make_needed_directories make_needed_directories).
Local Abbreviation main :=
  (main io_fault unzip row parse_csv http_get RAW_DATA_DIR
     make_needed_directories config_proper_city_name unicode_lower now_year
     now_month).

(** *** The constructor *)

Lemma init_cases (city : string) (yr : Z) (proper : string) :
  config_proper_city_name city = Return proper ->
  (In (lower city)
      ["bay_area"; "chicago"; "new_york"; "columbus"; "washington_dc";
       "portland"]
   /\ exists service_name,
        init city yr
        = Return (mkDataDownloader yr (lower city) proper
                    (list_to_map
                       [ ("bay_area", "bay-wheels");
                         ("chicago", "divvybikes");
                         ("new_york", "citibikenyc");
                         ("columbus", "cogobikeshare");
                         ("washington_dc", "capitalbikeshare");
                         ("portland", "biketownpdx") ]))
        /\ In (lower city, service_name)
             [ ("bay_area", "bay-wheels");
               ("chicago", "divvybikes");
               ("new_york", "citibikenyc");
               ("columbus", "cogobikeshare");
               ("washington_dc", "capitalbikeshare");
               ("portland", "biketownpdx") ])
  \/ (~ In (lower city)
        ["bay_area"; "chicago"; "new_york"; "columbus"; "washington_dc";
         "portland"]
      /\ init city yr
         = Raise (AssertionError
                    "Lyft doesn't have a bike-sharing system in the named city")).
Proof.
  intros Hproper. unfold init. rewrite Hproper. cbv zeta.
  cbn [service_names city_name]. unfold dict_has.
  remember (lower city) as c eqn:Hc. clear Hc.
  dict_cases.
  1-6: left; subst c; split; [cbn; tauto|]; eexists; split;
    [rewrite bool_decide_eq_true_2 by eauto; reflexivity | cbn; tauto].
  right. split.
  - cbn. intros [?|[?|[?|[?|[?|[?|[]]]]]]]; congruence.
  - rewrite bool_decide_eq_false_2 by (intros [? ?]; discriminate).
    reflexivity.
Qed.

(** X4. The constructor lowers the city identifier and accepts it exactly when
    the lowered identifier is one of the six keys of [service_names]; the
    instance then carries the year given and a service name for its city.
    Any other identifier that [proper_city_name] knows is rejected by the
    assertion. *)
Theorem init_validates_city
    (city : string) (yr : Z) (proper : string)
    (Hproper : config_proper_city_name city = Return proper) :
  match init city yr with
  | Return self =>
      city_name self = lower city
      /\ year self = yr
      /\ proper_city_name self = proper
      /\ In (city_name self)
           ["bay_area"; "chicago"; "new_york"; "columbus"; "washington_dc";
            "portland"]
      /\ is_Some (service_names self !! city_name self)
  | Raise e =>
      e = AssertionError
            "Lyft doesn't have a bike-sharing system in the named city"
      /\ ~ In (lower city)
             ["bay_area"; "chicago"; "new_york"; "columbus"; "washington_dc";
              "portland"]
  end.
Proof.
  destruct (init_cases city yr proper Hproper)
    as [[Hin (sn & -> & Hsn)] | [Hout ->]].
  - cbn [city_name year proper_city_name service_names].
    repeat split; auto.
    remember (lower city) as c eqn:Hc. clear Hc.
    cbn in Hin. destruct Hin as [<-|[<-|[<-|[<-|[<-|[<-|[]]]]]]]; eauto.
  - split; [reflexivity | exact Hout].
Qed.

(** *** The probe of an instance *)

(** X5. For an instance that the constructor has returned, the probe always
    issues one request, to the portal of its city: the branch of
    [city_has_data] for a city outside the registry is never taken. *)
Theorem city_has_data_of_an_instance_requests_its_portal
    (city : string) (yr : Z) (self : DataDownloader) (w : World)
    (Hinit : init city yr = Return self) :
  exists url,
    In (city_name self, url)
      [ ("bay_area", "https://lyft.com/bikes/bay-wheels");
        ("chicago", "https://divvybikes.com/system-data");
        ("new_york", "https://citibikenyc.com/system-data");
        ("columbus", "https://cogobikeshare.com/system-data");
        ("washington_dc", "https://capitalbikeshare.com/system-data");
        ("portland", "https://biketownpdx.com/system-data") ]
    /\ requested (trace (fst (city_has_data self w)))
       = requested (trace w) ++ [url].
Proof.
  destruct (config_proper_city_name city) as [proper|e] eqn:Hproper;
    [|unfold init in Hinit; rewrite Hproper in Hinit; discriminate].
  destruct (init_cases city yr proper Hproper)
    as [[Hin (sn & Heq & Hsn)] | [_ Heq]];
    rewrite Heq in Hinit; [|discriminate].
  injection Hinit as <-. clear Heq Hsn sn.
  remember (lower city) as c eqn:Hc. clear Hc.
  assert (Hreq : forall (self : DataDownloader) sn,
             service_names self !! city_name self = Some sn ->
             requested (trace (fst (city_has_data self w)))
             = requested (trace w) ++ [system_data_url self sn]).
  { intros self sn Hsn.
    rewrite (city_has_data_eq http_get self sn w Hsn).
    destruct (http_get _ _) as [response|e];
      [destruct (status_code response =? 200)|];
      cbn [fst trace]; rewrite requested_app; reflexivity. }
  cbn in Hin.
  destruct Hin as [<-|[<-|[<-|[<-|[<-|[<-|[]]]]]]];
    eexists; (split; [|apply Hreq; reflexivity]); cbn; tauto.
Qed.

(** *** A request that fails *)

(** X7. When the HTTP client raises on the request for the archive, the
    download logs the exception and returns [None] with the file system
    exactly as it was: no directory, no archive, so the month is still
    absent from the cache. *)
Theorem request_failure_leaves_the_disk_untouched
    (self : DataDownloader) (month : Z) (keep : bool) (f u : string)
    (e : exn) (w : World)
    (Hname : get_data_file_name self month = Return f)
    (Hurl : get_url_for_city_data self month w = (w, Return (Some u)))
    (Hfail :
       http_get (trace w ++ [Log INFO ("Downloading " +:+ f +:+ ".zip")]) u
       = Raise e) :
  download_one_file_of_raw_data self month keep w
  = (mkWorld (fs w)
       (trace w ++ [Log INFO ("Downloading " +:+ f +:+ ".zip"); Request u;
                    LogException e]),
     Return None).
Proof.
  pose proof (get_url_some_supported _ _ _ _ Hurl) as Hsup.
  destruct (download_one_file_of_raw_data_eq io_fault unzip row parse_csv
              http_get RAW_DATA_DIR self month keep f w Hname Hsup)
    as (u' & Hu' & ->).
  assert (u' = u) by congruence. subst u'.
  unfold try_except, download_attempt.
  erewrite bind_step by reflexivity.
  erewrite bind_fail
    by (unfold requests_get; cbn [trace fs]; rewrite Hfail; reflexivity).
  cbn. rewrite <- !app_assoc. reflexivity.
Qed.

(** *** Portland after 2020 *)

(** X8. For Portland and a year after 2020 the single-month download logs that
    no data is provided and then raises [TypeError], outside of its [try]
    block: [get_zipfile_name] is given the [None] that stands for the
    missing URL.  A batch that passes the probe ends with that exception at
    its first month when the month is not cached. *)
Theorem portland_after_2020_raises_type_error
    (self : DataDownloader) (just_download keep : bool)
    (months : option (list Z)) (month : Z) (rest : list Z) (f : string)
    (w w0 w1 : World)
    (Hcity : city_name self = "portland")
    (Hyear : 2020 < year self)
    (Hboot : run_make_needed_directories w = (w0, Return tt))
    (Hprobe : city_has_data self (before_probe self w0) = (w1, Return true))
    (Hmonths : months_to_query_for self months = month :: rest)
    (Hname : get_data_file_name self month = Return f)
    (Hmiss : path_exists (RAW_DATA_DIR ++ [city_name self; f]) w1 = false) :
  (forall m w',
      download_one_file_of_raw_data self m keep w'
      = (logged (Log ERROR "Lyft doesn't provide data on Portland after 2020.")
           w',
         Raise TypeError))
  /\ load_raw_data self just_download months w
     = (logged (Log ERROR "Lyft doesn't provide data on Portland after 2020.")
          w1,
        Raise TypeError).
Proof.
  assert (Hdl : forall k m w',
             download_one_file_of_raw_data self m k w'
             = (logged
                  (Log ERROR "Lyft doesn't provide data on Portland after 2020.")
                  w',
                Raise TypeError)).
  { intros k m w'. unfold download_one_file_of_raw_data.
    erewrite bind_step.
    2:{ unfold get_url_for_city_data. rewrite Hcity.
        replace (year self >? 2020) with true
          by (symmetry; apply Z.gtb_lt; lia).
        reflexivity. }
    reflexivity. }
  split; [intros; apply Hdl|].
  rewrite (load_raw_data_eq io_fault unzip row parse_csv http_get RAW_DATA_DIR
             make_needed_directories now_year now_month _ _ _ _ _ Hboot).
  erewrite bind_step by exact Hprobe. cbv beta iota.
  apply bind_fail. rewrite Hmonths, load_months_cons. apply bind_fail.
  rewrite (load_one_month_miss io_fault unzip row parse_csv http_get
             RAW_DATA_DIR self just_download month [] Unbound f w1 Hname Hmiss).
  rewrite Hdl. reflexivity.
Qed.


(** *** A download that succeeds *)

Lemma append_zip_ne (f : string) : f +:+ ".zip" <> f.
Proof.
  intros H. apply (f_equal String.length) in H.
  rewrite length_append in H. cbn in H. lia.
Qed.

(** X6. The download of a month that is not cached, when nothing fails: the
    directory of the city exists, the environment imposes no fault, the
    request is answered with an archive that holds [<file>.csv], and the CSV
    parses.  The download returns the parsed table; it has created the
    directory of the month, extracted the CSV into it and, unless
    [keep_zipfile] is set, removed the archive it had written next to the
    directory; nothing else on the disk has changed, and the cache check of
    the month now answers true. *)
Theorem download_succeeds
    (self : DataDownloader) (month : Z) (keep : bool) (f u : string)
    (resp : Response) (archive : gmap string bytes) (csv_bytes : bytes)
    (df : DataFrame) (w : World)
    (Hname : get_data_file_name self month = Return f)
    (Hurl : get_url_for_city_data self month w = (w, Return (Some u)))
    (Hmiss : fs w !! (RAW_DATA_DIR ++ [city_name self; f]) = None)
    (Hzip : fs w !! (RAW_DATA_DIR ++ [city_name self; f +:+ ".zip"])
            <> Some Dir)
    (Hcsv : fs w !! (RAW_DATA_DIR ++ [city_name self; f; f +:+ ".csv"])
            <> Some Dir)
    (Hcity_dir : fs w !! (RAW_DATA_DIR ++ [city_name self]) = Some Dir)
    (Hno_fault : forall t op, io_fault t op = None)
    (Hresp :
       http_get (trace w ++ [Log INFO ("Downloading " +:+ f +:+ ".zip")]) u
       = Return resp)
    (Harchive : unzip (content resp) = Some archive)
    (Hmember : archive !! (f +:+ ".csv") = Some csv_bytes)
    (Hparse : parse_csv csv_bytes = Return df) :
  let dir := RAW_DATA_DIR ++ [city_name self; f] in
  let zip := RAW_DATA_DIR ++ [city_name self; f +:+ ".zip"] in
  let csv := RAW_DATA_DIR ++ [city_name self; f; f +:+ ".csv"] in
  let extracted :=
    <[csv := File csv_bytes]>
      (<[zip := File (content resp)]> (<[dir := Dir]> (fs w))) in
  let w' :=
    mkWorld (if keep then extracted else delete zip extracted)
      (trace w ++ [Log INFO ("Downloading " +:+ f +:+ ".zip"); Request u;
                   Log SUCCESS "Download successful!"]) in
  download_one_file_of_raw_data self month keep w = (w', Return (Some df))
  /\ snd (data_file_exists self f w') = Return true.
Proof.
  intros dir zip csv extracted w'.
  pose proof (get_url_some_supported _ _ _ _ Hurl) as Hsup.
  destruct (download_one_file_of_raw_data_eq io_fault unzip row parse_csv
              http_get RAW_DATA_DIR self month keep f w Hname Hsup)
    as (u' & Hu' & Hdl).
  assert (u' = u) by congruence. subst u'. clear Hu'.
  assert (Hzd : zip <> dir).
  { intros H. apply app_inv_head in H. injection H as H.
    now apply append_zip_ne in H. }
  assert (Hcz : csv <> zip)
    by (intros H; apply app_inv_head in H; discriminate).
  assert (Hcd : csv <> dir)
    by (intros H; apply app_inv_head in H; discriminate).
  assert (Hpd : RAW_DATA_DIR ++ [city_name self] <> dir).
  { intros H. apply app_inv_head in H. discriminate. }
  assert (Hdir' : fs w' !! dir = Some Dir).
  { subst w' extracted. cbn [fs].
    destruct keep; [|rewrite lookup_delete_ne by exact Hzd];
      rewrite lookup_insert_ne by exact Hcd;
      rewrite lookup_insert_ne by exact Hzd;
      apply lookup_insert_eq. }
  assert (Hcsv_path : dir ++ [f +:+ ".csv"] = csv).
  { unfold dir, csv. rewrite <- app_assoc. reflexivity. }
  split; [|now apply data_file_exists_dir].
  rewrite Hdl. unfold try_except.
  rewrite (download_attempt_mkdir io_fault unzip row parse_csv http_get
             RAW_DATA_DIR self u f keep resp w Hmiss Hcity_dir
             (fun t => Hno_fault t _) Hresp).
  fold dir zip.
  erewrite bind_step.
  2:{ apply write_file_ok; cbn [fs trace]; auto.
      - rewrite lookup_insert_ne by congruence. exact Hzip.
      - unfold parent, zip. rewrite removelast_app2.
        rewrite lookup_insert_ne by congruence. exact Hcity_dir. }
  erewrite bind_step.
  2:{ apply (ZipFile_extract_ok io_fault unzip zip (f +:+ ".csv") dir
               (content resp) csv_bytes archive); cbn [fs trace]; auto.
      - apply lookup_insert_eq.
      - rewrite lookup_insert_ne by exact Hzd. apply lookup_insert_eq.
      - rewrite Hcsv_path.
        rewrite lookup_insert_ne by congruence.
        rewrite lookup_insert_ne by congruence. exact Hcsv. }
  rewrite Hcsv_path. cbn [fs trace].
  destruct keep; cbn [negb].
  - erewrite bind_step by reflexivity.
    erewrite bind_step.
    2:{ apply (pd_read_csv_ok io_fault row parse_csv csv csv_bytes df);
          cbn [fs trace]; auto.
        apply lookup_insert_eq. }
    reflexivity.
  - erewrite bind_step.
    2:{ apply (os_remove_ok io_fault zip (content resp)); cbn [fs trace]; auto.
        rewrite lookup_insert_ne by exact Hcz. apply lookup_insert_eq. }
    erewrite bind_step.
    2:{ apply (pd_read_csv_ok io_fault row parse_csv csv csv_bytes df);
          cbn [fs trace]; auto.
        rewrite lookup_delete_ne by congruence. apply lookup_insert_eq. }
    reflexivity.
Qed.


(** *** The two modes of the batch *)

Lemma data_file_exists_true (self : DataDownloader) (f : string) (w : World) :
  snd (data_file_exists self f w) = Return true ->
  data_file_exists self f w = (w, Return true).
Proof.
  unfold data_file_exists. cbv zeta. cbn [snd]. now intros [= ->].
Qed.

Lemma load_one_month_hit_download_only (self : DataDownloader) (month : Z)
    (data : DataFrame) (v : local (option DataFrame)) (f : string) (w : World) :
  get_data_file_name self month = Return f ->
  snd (data_file_exists self f w) = Return true ->
  load_one_month self true month data v w
  = (x <- pd_concat row data v ;; ret (x, v))
      (logged (Log SUCCESS (f +:+ " is already saved to disk")) w).
Proof.
  intros Hname Hhit. unfold load_one_month.
  erewrite bind_step by (unfold lift; rewrite Hname; reflexivity).
  erewrite bind_step.
  2:{ erewrite bind_step by (apply data_file_exists_true, Hhit).
      cbv beta iota. erewrite bind_step by reflexivity. reflexivity. }
  reflexivity.
Qed.

(** X9. In download-only mode a cached month assigns nothing to the local
    [data_for_the_month], so the table of the month before it is
    concatenated a second time: when a month is downloaded and the next one
    is cached, the rows of the first are in the table of the batch twice. *)
Theorem cached_month_repeats_the_rows_before_it
    (self : DataDownloader) (m1 m2 : Z) (rest : list Z) (data df : DataFrame)
    (v : local (option DataFrame)) (f1 f2 : string) (w w1 : World)
    (Hname1 : get_data_file_name self m1 = Return f1)
    (Hmiss1 : path_exists (RAW_DATA_DIR ++ [city_name self; f1]) w = false)
    (Hdownload :
       download_one_file_of_raw_data self m1 false w = (w1, Return (Some df)))
    (Hname2 : get_data_file_name self m2 = Return f2)
    (Hhit2 : snd (data_file_exists self f2 w1) = Return true) :
  load_months self true (m1 :: m2 :: rest) data v w
  = load_months self true rest (data ++ df ++ df) (Bound (Some df))
      (logged (Log SUCCESS (f2 +:+ " is already saved to disk")) w1).
Proof.
  rewrite load_months_cons, bind_unfold.
  rewrite (load_one_month_miss io_fault unzip row parse_csv http_get
             RAW_DATA_DIR self true m1 data v f1 w Hname1 Hmiss1).
  rewrite Hdownload. cbn [fst snd rows_of].
  rewrite load_months_cons, bind_unfold.
  rewrite (load_one_month_hit_download_only self m2 (data ++ df)
             (Bound (Some df)) f2 w1 Hname2 Hhit2).
  cbn. rewrite <- app_assoc. reflexivity.
Qed.

(** X10. On a batch in which every month has to be downloaded the flag
    [just_download] changes nothing: download-only mode parses every CSV it
    downloads and accumulates the rows like load mode, with the same
    requests, the same files and the same result. *)
Theorem download_only_mode_loads_what_it_downloads
    (self : DataDownloader) (months : list Z) (data : DataFrame)
    (v : local (option DataFrame)) (w : World)
    (Hall : all_downloaded self months w) :
  load_months self true months data v w
  = load_months self false months data v w.
Proof.
  revert data v w Hall.
  induction months as [|month rest IH]; intros data v w Hall; [reflexivity|].
  destruct Hall as [(f & Hname & Hmiss) Hrest].
  rewrite !load_months_cons, !bind_unfold.
  rewrite !(load_one_month_miss io_fault unzip row parse_csv http_get
              RAW_DATA_DIR self _ month data v f w Hname Hmiss).
  destruct (download_one_file_of_raw_data self month false w)
    as [w1 [r|e]]; [|reflexivity].
  apply IH. exact Hrest.
Qed.

(** *** Requests *)

Lemma quiet_get_url_for_city_data (self : DataDownloader) (month : Z) :
  quiet (get_url_for_city_data self month).
Proof. unfold get_url_for_city_data. quiet_tac. Qed.

Lemma quiet_data_file_exists (self : DataDownloader) (f : string) :
  quiet (data_file_exists self f).
Proof. intros w. reflexivity. Qed.

Lemma download_attempt_requested (self : DataDownloader) (u zn : string)
    (keep : bool) (w : World) :
  requested (trace (fst (download_attempt self u zn keep w)))
  = requested (trace w) ++ [u].
Proof.
  unfold download_attempt. erewrite bind_step by reflexivity.
  rewrite bind_unfold. unfold requests_get at 1. cbn [fs trace].
  destruct (http_get _ u) as [resp|e]; cbn [fst snd].
  - match goal with
    | |- requested (trace (fst (?c ?w1))) = _ =>
        assert (Hq : quiet c) by quiet_tac; rewrite (Hq w1)
    end.
    cbn [trace]. rewrite !requested_app. cbn. now rewrite app_nil_r.
  - cbn [trace]. rewrite !requested_app. cbn. now rewrite app_nil_r.
Qed.

(** The single-month download issues at most one request, whatever
    happens. *)
Lemma download_one_file_of_raw_data_requested (self : DataDownloader)
    (month : Z) (keep : bool) (w : World) :
  exists l,
    requested (trace (fst (download_one_file_of_raw_data self month keep w)))
    = requested (trace w) ++ l
    /\ (length l <= 1)%nat.
Proof.
  unfold download_one_file_of_raw_data. rewrite bind_unfold.
  pose proof (quiet_get_url_for_city_data self month w) as Hq.
  destruct (get_url_for_city_data self month w) as [w1 [url|e]];
    cbn [fst] in Hq.
  - rewrite bind_unfold. unfold lift at 1.
    destruct (get_zipfile_name url) as [zn|e].
    + destruct url as [u|].
      * unfold try_except.
        pose proof (download_attempt_requested self u zn keep w1) as Ha.
        destruct (download_attempt self u zn keep w1) as [w2 [r|e]];
          cbn [fst] in *; exists [u]; (split; [|cbn; lia]).
        -- now rewrite Ha, Hq.
        -- cbn [fst snd bind emit ret trace fs].
           rewrite requested_app, Ha, Hq. cbn. now rewrite app_nil_r.
      * exists []. cbn [fst raise]. rewrite app_nil_r. split; [exact Hq|cbn; lia].
    + exists []. cbn [fst]. rewrite app_nil_r. split; [exact Hq|cbn; lia].
  - exists []. cbn [fst]. rewrite app_nil_r. split; [exact Hq|cbn; lia].
Qed.

(** X11. The download of a month issues exactly one request, to the URL derived
    for the month, whether it succeeds or fails at any step: nothing is
    retried. *)
Theorem download_issues_one_request
    (self : DataDownloader) (month : Z) (keep : bool) (f : string) (w : World)
    (Hname : get_data_file_name self month = Return f)
    (Hsupported :
       String.eqb (city_name self) "portland" && (year self >? 2020) = false) :
  exists u,
    get_url_for_city_data self month w = (w, Return (Some u))
    /\ requested
         (trace (fst (download_one_file_of_raw_data self month keep w)))
       = requested (trace w) ++ [u].
Proof.
  destruct (download_one_file_of_raw_data_eq io_fault unzip row parse_csv
              http_get RAW_DATA_DIR self month keep f w Hname Hsupported)
    as (u & Hu & ->).
  exists u. split; [exact Hu|].
  unfold try_except.
  pose proof (download_attempt_requested self u (f +:+ ".zip") keep w) as Ha.
  destruct (download_attempt self u (f +:+ ".zip") keep w) as [w2 [r|e]];
    cbn [fst] in *.
  - exact Ha.
  - cbn [fst snd bind emit ret trace fs].
    rewrite requested_app, Ha. cbn. now rewrite app_nil_r.
Qed.

(** X12. A month found in the cache makes no request, in either mode. *)
Theorem cached_month_issues_no_request
    (self : DataDownloader) (just_download : bool) (month : Z)
    (data : DataFrame) (v : local (option DataFrame)) (f : string) (w : World)
    (Hname : get_data_file_name self month = Return f)
    (Hhit : snd (data_file_exists self f w) = Return true) :
  requested (trace (fst (load_one_month self just_download month data v w)))
  = requested (trace w).
Proof.
  unfold load_one_month.
  erewrite bind_step by (unfold lift; rewrite Hname; reflexivity).
  rewrite bind_unfold.
  destruct just_download.
  - erewrite bind_step by (apply data_file_exists_true, Hhit).
    cbv beta iota. erewrite bind_step by reflexivity. cbn [ret].
    match goal with
    | |- requested (trace (fst (?c ?w1))) = _ =>
        assert (Hq : quiet c) by quiet_tac; rewrite (Hq w1)
    end.
    cbn. rewrite requested_app. cbn. apply app_nil_r.
  - erewrite bind_step by (apply data_file_exists_true, Hhit).
    cbv beta iota. erewrite bind_step by reflexivity.
    rewrite bind_unfold.
    pose proof (quiet_pd_read_csv io_fault row parse_csv
                  (RAW_DATA_DIR ++ [f; f +:+ ".csv"])
                  (logged (Log SUCCESS (f +:+ " is already saved to disk")) w))
      as Hr.
    destruct (pd_read_csv _ _ _ _ _) as [w2 [d|e]]; cbn [fst] in Hr.
    + cbn [ret].
      match goal with
      | |- requested (trace (fst (?c ?w1))) = _ =>
          assert (Hq : quiet c) by quiet_tac; rewrite (Hq w1)
      end.
      rewrite Hr. cbn. rewrite requested_app. cbn. apply app_nil_r.
    + cbn [fst]. rewrite Hr. cbn. rewrite requested_app. cbn. apply app_nil_r.
Qed.

(** *** How many requests a batch can make *)

Lemma issues_at_most_quiet {A} (n : nat) (c : M A) :
  quiet c -> issues_at_most n c.
Proof.
  intros Hq w. exists []. rewrite app_nil_r. split; [apply Hq | cbn; lia].
Qed.

Lemma issues_at_most_bind {A B} (n m : nat) (c : M A) (k : A -> M B) :
  issues_at_most n c -> (forall a, issues_at_most m (k a)) ->
  issues_at_most (n + m) (bind c k).
Proof.
  intros Hc Hk w. rewrite bind_unfold.
  destruct (Hc w) as (l1 & H1 & Hn).
  destruct (c w) as [w1 [a|e]]; cbn [fst] in *.
  - destruct (Hk a w1) as (l2 & H2 & Hm).
    exists (l1 ++ l2). rewrite H2, H1, app_assoc. split; [reflexivity|].
    rewrite length_app. lia.
  - exists l1. split; [exact H1 | lia].
Qed.

Lemma issues_at_most_city_has_data (self : DataDownloader) :
  issues_at_most 1 (city_has_data self).
Proof.
  unfold city_has_data.
  destruct (service_names self !! city_name self) as [service_name|];
    [|apply issues_at_most_quiet; quiet_tac].
  apply (issues_at_most_bind 0 1);
    [apply issues_at_most_quiet; quiet_tac | intros _].
  apply (issues_at_most_bind 1 0).
  - intros w. exists [system_data_url self service_name].
    cbn. rewrite requested_app. split; [reflexivity | lia].
  - intros response. apply issues_at_most_quiet. quiet_tac.
Qed.

Lemma issues_at_most_load_one_month (self : DataDownloader)
    (just_download : bool) (month : Z) (data : DataFrame)
    (v : local (option DataFrame)) :
  issues_at_most 1 (load_one_month self just_download month data v).
Proof.
  pose proof quiet_data_file_exists as Hex.
  assert (Hdl : forall A (k : option DataFrame -> M A),
             (forall d, quiet (k d)) ->
             issues_at_most 1
               (bind (download_one_file_of_raw_data self month false) k)).
  { intros A k Hk. apply (issues_at_most_bind 1 0).
    - intros w. apply download_one_file_of_raw_data_requested.
    - intros d. now apply issues_at_most_quiet. }
  unfold load_one_month.
  apply (issues_at_most_bind 0 1);
    [apply issues_at_most_quiet; quiet_tac | intros f].
  apply (issues_at_most_bind 1 0);
    [|intros d; apply issues_at_most_quiet; quiet_tac].
  destruct just_download;
    (apply (issues_at_most_bind 0 1);
       [apply issues_at_most_quiet, Hex | intros cached]);
    (destruct cached;
       [apply issues_at_most_quiet; quiet_tac
       | apply Hdl; intros d; quiet_tac]).
Qed.

Lemma issues_at_most_load_months (self : DataDownloader) (just_download : bool)
    (months : list Z) (data : DataFrame) (v : local (option DataFrame)) :
  issues_at_most (length months) (load_months self just_download months data v).
Proof.
  revert data v. induction months as [|month rest IH]; intros data v.
  - apply issues_at_most_quiet. apply quiet_ret.
  - change (length (month :: rest)) with (1 + length rest)%nat.
    apply (issues_at_most_bind 1 (length rest)
             (load_one_month self just_download month data v)).
    + apply issues_at_most_load_one_month.
    + intros st. apply IH.
Qed.

(** X13. A batch never issues more requests than one for the probe and one for
    each entry of the list of months it runs over, whatever the cache holds
    and whatever fails.  (A month listed twice counts twice: its archive is
    requested again when the first request has left nothing in the cache.) *)
Theorem load_raw_data_issues_at_most_one_request_per_month
    (self : DataDownloader) (just_download : bool) (months : option (list Z)) :
  issues_at_most (1 + length (months_to_query_for self months))
    (load_raw_data self just_download months).
Proof.
  unfold load_raw_data.
  apply (issues_at_most_bind 0 (1 + _)).
  { apply issues_at_most_quiet. intros w.
    unfold run_make_needed_directories.
    now destruct (make_needed_directories (fs w)). }
  intros _.
  apply (issues_at_most_bind 0 (1 + _));
    [apply issues_at_most_quiet; quiet_tac | intros _].
  apply (issues_at_most_bind 1 _); [apply issues_at_most_city_has_data|].
  intros [|]; [|apply issues_at_most_quiet; quiet_tac].
  replace (length (months_to_query_for self months))
    with (length (months_to_query_for self months) + 0)%nat by lia.
  apply issues_at_most_bind; [apply issues_at_most_load_months|].
  intros d. apply issues_at_most_quiet. quiet_tac.
Qed.

(** *** The command line *)

Lemma main_cons (city : string) (rest : list string) (yr : Z) (w : World) :
  main (city :: rest) yr w
  = (processor <- lift (init city yr) ;;
     load_raw_data processor true None ;;;
     main rest yr) w.
Proof. reflexivity. Qed.

(** X14. When the portal of a city answers with a status other than 200, the
    run goes on with the next city, in the world that the probe has left:
    nothing is downloaded or written for that city. *)
Theorem main_goes_on_after_a_city_without_data
    (city : string) (rest : list string) (yr : Z) (self : DataDownloader)
    (w w0 w1 : World)
    (Hinit : init city yr = Return self)
    (Hboot : run_make_needed_directories w = (w0, Return tt))
    (Hprobe : city_has_data self (before_probe self w0) = (w1, Return false)) :
  main (city :: rest) yr w = main rest yr w1.
Proof.
  rewrite main_cons.
  erewrite bind_step by (unfold lift; rewrite Hinit; reflexivity).
  erewrite bind_step.
  2:{ rewrite (load_raw_data_eq io_fault unzip row parse_csv http_get
                 RAW_DATA_DIR make_needed_directories now_year now_month
                 _ _ _ _ _ Hboot).
      erewrite bind_step by exact Hprobe. reflexivity. }
  reflexivity.
Qed.

(** X15. A city outside the registry stops the run: the constructor raises
    [AssertionError] before anything is requested or written, and the
    cities listed after it are never processed. *)
Theorem main_stops_at_a_city_outside_the_registry
    (city : string) (rest : list string) (yr : Z) (proper : string) (w : World)
    (Hproper : config_proper_city_name city = Return proper)
    (Hout : ~ In (lower city)
                ["bay_area"; "chicago"; "new_york"; "columbus";
                 "washington_dc"; "portland"]) :
  main (city :: rest) yr w
  = (w, Raise (AssertionError
                 "Lyft doesn't have a bike-sharing system in the named city")).
Proof.
  rewrite main_cons. apply bind_fail. unfold lift.
  destruct (init_cases city yr proper Hproper) as [[Hin _] | [_ ->]];
    [contradiction | reflexivity].
Qed.

(** *** The months by default *)

(** X16. With the month of the clock between 1 and 12, the months a batch runs
    over by default are months of the calendar, in increasing order, starting
    with January and never empty. *)
Theorem default_months_are_calendar_months
    (self : DataDownloader)
    (Hclock : 1 <= now_month <= 12) :
  let months := months_to_query_for self None in
  hd_error months = Some 1
  /\ Forall (fun m => 1 <= m <= 12) months
  /\ StronglySorted Z.lt months
  /\ Z.of_nat (length months)
     = (if year self =? now_year then now_month else 12).
Proof.
  unfold months_to_query_for.
  assert (Hcases : forall n, 1 <= n <= 12 ->
             hd_error (py_range 1 (n + 1)) = Some 1
             /\ Forall (fun m => 1 <= m <= 12) (py_range 1 (n + 1))
             /\ StronglySorted Z.lt (py_range 1 (n + 1))
             /\ Z.of_nat (length (py_range 1 (n + 1))) = n).
  { intros n Hn.
    assert (n = 1 \/ n = 2 \/ n = 3 \/ n = 4 \/ n = 5 \/ n = 6 \/ n = 7
            \/ n = 8 \/ n = 9 \/ n = 10 \/ n = 11 \/ n = 12) as Hn' by lia.
    repeat destruct Hn' as [-> | Hn']; try subst n;
      (split; [reflexivity|]; split; [|split; [|reflexivity]]);
      cbn; repeat constructor; lia. }
  cbv zeta.
  destruct (year self =? now_year); apply Hcases; lia.
Qed.

End MoreDownloaderProperties.

(** ** Examples for the further properties *)

Lemma file_name_is_read_back_from_url_witness :
  exists u zipfile_name,
    get_url_for_city_data Demo.chicago 1 Demo.empty_cache
    = (Demo.empty_cache, Return (Some u))
    /\ get_zipfile_name (Some u) = Return zipfile_name
    /\ zipfile_name = "202401-divvy-tripdata" +:+ ".zip"
    /\ drop_last 4 zipfile_name = "202401-divvy-tripdata".
Proof.
  apply (file_name_is_read_back_from_url Demo.chicago 1
           "202401-divvy-tripdata" Demo.empty_cache); reflexivity.
Defined.

Lemma get_data_file_name_separates_months_witness :
  get_data_file_name Demo.chicago 3 = Return "202403-divvy-tripdata"
  /\ (3 : Z) = 3.
Proof.
  split; [reflexivity|].
  apply (get_data_file_name_separates_months Demo.chicago 3 3
           "202403-divvy-tripdata"); [lia | lia | reflexivity | reflexivity].
Defined.

(** The identifier is lowered before it is looked up. *)
Lemma init_validates_city_witness :
  match init Demo.proper_city_name Demo.unicode_lower "New_York" 2024 with
  | Return self =>
      city_name self = lower Demo.unicode_lower "New_York"
      /\ year self = 2024
      /\ proper_city_name self = "New_York"
      /\ In (city_name self)
           ["bay_area"; "chicago"; "new_york"; "columbus"; "washington_dc";
            "portland"]
      /\ is_Some (service_names self !! city_name self)
  | Raise e =>
      e = AssertionError
            "Lyft doesn't have a bike-sharing system in the named city"
      /\ ~ In (lower Demo.unicode_lower "New_York")
             ["bay_area"; "chicago"; "new_york"; "columbus"; "washington_dc";
              "portland"]
  end.
Proof.
  apply (init_validates_city Demo.proper_city_name Demo.unicode_lower
           "New_York" 2024 "New_York").
  reflexivity.
Defined.

Lemma city_has_data_of_an_instance_requests_its_portal_witness :
  requested (trace (fst (city_has_data Demo.http_down Demo.bay_area
                           Demo.empty_cache)))
  = ["https://lyft.com/bikes/bay-wheels"].
Proof.
  destruct (city_has_data_of_an_instance_requests_its_portal Demo.http_down
              Demo.proper_city_name Demo.unicode_lower
              "bay_area" 2024 Demo.bay_area
              Demo.empty_cache eq_refl) as (url & Hin & Hreq).
  cbn in Hin.
  destruct Hin as [H|[H|[H|[H|[H|[H|[]]]]]]]; try discriminate H.
  injection H as <-. rewrite Hreq. reflexivity.
Defined.

Lemma request_failure_leaves_the_disk_untouched_witness :
  download_one_file_of_raw_data Demo.no_fault Demo.unzip Byte.byte
    Demo.parse_csv Demo.http Demo.RAW_DATA_DIR Demo.chicago 2 false
    Demo.empty_cache
  = (mkWorld (fs Demo.empty_cache)
       [ Log INFO "Downloading 202402-divvy-tripdata.zip";
         Request Demo.feb_url;
         LogException (RequestException "connection reset") ],
     Return None).
Proof.
  apply (request_failure_leaves_the_disk_untouched Demo.no_fault Demo.unzip
           Byte.byte Demo.parse_csv Demo.http Demo.RAW_DATA_DIR Demo.chicago 2
           false "202402-divvy-tripdata" Demo.feb_url
           (RequestException "connection reset") Demo.empty_cache);
    reflexivity.
Defined.

Lemma portland_after_2020_raises_type_error_witness :
  snd (download_one_file_of_raw_data Demo.no_fault Demo.unzip Byte.byte
         Demo.parse_csv Demo.http Demo.RAW_DATA_DIR Demo.portland_2021 5 false
         Demo.empty_cache)
  = Raise TypeError
  /\ snd (load_raw_data Demo.no_fault Demo.unzip Byte.byte Demo.parse_csv
            Demo.http Demo.RAW_DATA_DIR Demo.make_needed_directories 2025 6
            Demo.portland_2021 true (Some [5]) Demo.empty_cache)
     = Raise TypeError.
Proof.
  destruct (portland_after_2020_raises_type_error Demo.no_fault Demo.unzip
              Byte.byte Demo.parse_csv Demo.http Demo.RAW_DATA_DIR
              Demo.make_needed_directories 2025 6 Demo.portland_2021 true false
              (Some [5]) 5 [] "202105.csv" Demo.empty_cache Demo.empty_cache
              (fst (city_has_data Demo.http Demo.portland_2021
                      (before_probe Demo.portland_2021 Demo.empty_cache)))
              eq_refl ltac:(cbn; lia) eq_refl eq_refl eq_refl eq_refl eq_refl)
    as [Hdl Hbatch].
  split; [rewrite Hdl | rewrite Hbatch]; reflexivity.
Defined.

(** January 2024 on an empty cache: the table, the cache entry, and no
    archive left. *)
Lemma download_succeeds_witness :
  let dl :=
    download_one_file_of_raw_data Demo.no_fault Demo.unzip Byte.byte
      Demo.parse_csv Demo.http Demo.RAW_DATA_DIR Demo.chicago 1 false
      Demo.empty_cache in
  snd dl = Return (Some [Byte.x0a; Byte.x0b])
  /\ snd (data_file_exists Demo.RAW_DATA_DIR Demo.chicago
            "202401-divvy-tripdata" (fst dl)) = Return true
  /\ fs (fst dl)
       !! ["data"; "raw"; "chicago"; "202401-divvy-tripdata";
           "202401-divvy-tripdata.csv"]
     = Some (File [Byte.x0a; Byte.x0b])
  /\ fs (fst dl) !! ["data"; "raw"; "chicago"; "202401-divvy-tripdata.zip"]
     = None.
Proof.
  intros dl.
  destruct (download_succeeds Demo.no_fault Demo.unzip Byte.byte
              Demo.parse_csv Demo.http Demo.RAW_DATA_DIR Demo.chicago 1 false
              "202401-divvy-tripdata" Demo.jan_url
              (mkResponse 200 [Byte.x01; Byte.x0a; Byte.x0b])
              {[ "202401-divvy-tripdata.csv" := [Byte.x0a; Byte.x0b] ]}
              [Byte.x0a; Byte.x0b] [Byte.x0a; Byte.x0b] Demo.empty_cache
              eq_refl eq_refl eq_refl ltac:(discriminate) ltac:(discriminate)
              eq_refl (fun _ _ => eq_refl) eq_refl eq_refl eq_refl eq_refl)
    as [Hdl Hhit].
  subst dl. rewrite Hdl. cbn [fst snd].
  split; [reflexivity|]. split; [exact Hhit|]. split; reflexivity.
Defined.

(** January 2024 asked for twice in download-only mode: downloaded, then
    found in the cache, and its two rows are in the table twice. *)
Lemma cached_month_repeats_the_rows_before_it_witness :
  snd (load_months Demo.no_fault Demo.unzip Byte.byte Demo.parse_csv Demo.http
         Demo.RAW_DATA_DIR Demo.chicago true [1; 1] [] Unbound
         Demo.empty_cache)
  = Return [Byte.x0a; Byte.x0b; Byte.x0a; Byte.x0b].
Proof.
  rewrite (cached_month_repeats_the_rows_before_it Demo.no_fault Demo.unzip
             Byte.byte Demo.parse_csv Demo.http Demo.RAW_DATA_DIR Demo.chicago
             1 1 [] [] [Byte.x0a; Byte.x0b] Unbound "202401-divvy-tripdata"
             "202401-divvy-tripdata" Demo.empty_cache
             (fst (download_one_file_of_raw_data Demo.no_fault Demo.unzip
                     Byte.byte Demo.parse_csv Demo.http Demo.RAW_DATA_DIR
                     Demo.chicago 1 false Demo.empty_cache))
             eq_refl eq_refl eq_refl eq_refl eq_refl).
  reflexivity.
Defined.

Lemma download_only_mode_loads_what_it_downloads_witness :
  load_months Demo.no_fault Demo.unzip Byte.byte Demo.parse_csv Demo.http
    Demo.RAW_DATA_DIR Demo.chicago true [2; 1] [] Unbound Demo.empty_cache
  = load_months Demo.no_fault Demo.unzip Byte.byte Demo.parse_csv Demo.http
      Demo.RAW_DATA_DIR Demo.chicago false [2; 1] [] Unbound Demo.empty_cache.
Proof.
  apply download_only_mode_loads_what_it_downloads.
  cbn [all_downloaded].
  split; [eexists; split; reflexivity|].
  split; [eexists; split; reflexivity | exact I].
Defined.

(** March 2024 answers with a body that is no archive: one request all the
    same. *)
Lemma download_issues_one_request_witness :
  requested
    (trace (fst (download_one_file_of_raw_data Demo.no_fault Demo.unzip
                   Byte.byte Demo.parse_csv Demo.http Demo.RAW_DATA_DIR
                   Demo.chicago 3 false Demo.empty_cache)))
  = ["https://divvy-tripdata.s3.amazonaws.com/202403-divvy-tripdata.zip"].
Proof.
  destruct (download_issues_one_request Demo.no_fault Demo.unzip Byte.byte
              Demo.parse_csv Demo.http Demo.RAW_DATA_DIR Demo.chicago 3 false
              "202403-divvy-tripdata" Demo.empty_cache eq_refl eq_refl)
    as (u & Hu & Hreq).
  change (get_url_for_city_data Demo.chicago 3 Demo.empty_cache)
    with (Demo.empty_cache,
          Return
            (Some
               "https://divvy-tripdata.s3.amazonaws.com/202403-divvy-tripdata.zip"))
    in Hu.
  injection Hu as <-. exact Hreq.
Defined.

Lemma cached_month_issues_no_request_witness :
  requested
    (trace (fst (load_one_month Demo.no_fault Demo.unzip Byte.byte
                   Demo.parse_csv Demo.http Demo.RAW_DATA_DIR Demo.chicago
                   false 1 [] Unbound Demo.january_cached)))
  = [].
Proof.
  apply (cached_month_issues_no_request Demo.no_fault Demo.unzip Byte.byte
           Demo.parse_csv Demo.http Demo.RAW_DATA_DIR Demo.chicago false 1 []
           Unbound "202401-divvy-tripdata" Demo.january_cached);
    reflexivity.
Defined.

(** Every portal answers 404: the run visits both cities and downloads
    nothing. *)
Lemma main_goes_on_after_a_city_without_data_witness :
  let run :=
    main Demo.no_fault Demo.unzip Byte.byte Demo.parse_csv Demo.http_404
      Demo.RAW_DATA_DIR Demo.make_needed_directories
      Demo.proper_city_name Demo.unicode_lower
      2025 6 ["chicago"; "new_york"] 2024 Demo.empty_cache in
  snd run = Return tt
  /\ requested (trace (fst run))
     = ["https://divvybikes.com/system-data";
        "https://citibikenyc.com/system-data"]
  /\ fs (fst run) = fs Demo.empty_cache.
Proof.
  intros run. subst run.
  rewrite (main_goes_on_after_a_city_without_data Demo.no_fault Demo.unzip
             Byte.byte Demo.parse_csv Demo.http_404 Demo.RAW_DATA_DIR
             Demo.make_needed_directories
             Demo.proper_city_name Demo.unicode_lower 2025 6
             "chicago" ["new_york"] 2024 Demo.chicago Demo.empty_cache
             Demo.empty_cache
             (fst (city_has_data Demo.http_404 Demo.chicago
                     (before_probe Demo.chicago Demo.empty_cache)))
             eq_refl eq_refl eq_refl).
  split; [reflexivity|]. split; reflexivity.
Defined.

Lemma main_stops_at_a_city_outside_the_registry_witness :
  main Demo.no_fault Demo.unzip Byte.byte Demo.parse_csv Demo.http
    Demo.RAW_DATA_DIR Demo.make_needed_directories
    Demo.proper_city_name Demo.unicode_lower
    2025 6 ["miami"; "chicago"] 2024 Demo.empty_cache
  = (Demo.empty_cache,
     Raise (AssertionError
              "Lyft doesn't have a bike-sharing system in the named city")).
Proof.
  apply (main_stops_at_a_city_outside_the_registry Demo.no_fault Demo.unzip
           Byte.byte Demo.parse_csv Demo.http Demo.RAW_DATA_DIR
           Demo.make_needed_directories
           Demo.proper_city_name Demo.unicode_lower 2025 6
           "miami" ["chicago"] 2024 "miami" Demo.empty_cache eq_refl).
  cbn. intros [H|[H|[H|[H|[H|[H|[]]]]]]]; discriminate H.
Defined.

Lemma default_months_are_calendar_months_witness :
  let months := months_to_query_for 2024 6 Demo.chicago None in
  hd_error months = Some 1
  /\ Forall (fun m => 1 <= m <= 12) months
  /\ StronglySorted Z.lt months
  /\ Z.of_nat (length months) = (if year Demo.chicago =? 2024 then 6 else 12).
Proof.
  apply (default_months_are_calendar_months 2024 6 Demo.chicago). lia.
Defined.
